(** * vision.py: screenshot queries against a remote multimodal model

    A shallow embedding of [src/linux-desktop/vision.py] and the proofs of
    the properties its specification states.

    Conventions of the embedding.
    - Python [str] values are Stdlib [string]s.  A character is read as the
      code point of the same number, so the model covers the texts whose
      code points lie in U+0000..U+00FF; [isspace], [lower] and the JSON
      string escapes below are CPython's, restricted to that range.
    - The interpreter's and the libraries' functions the script calls
      ([str.split], [str.strip], [pathlib], [base64], [json.dumps]) are
      embedded as functions; [json.loads], [str()] and the float type are
      parameters of the section that needs them.
    - The file system, Pillow and the remote service are a [World] of
      oracles; a run produces the list of its effects and how it ended. *)

From Stdlib Require Import String Ascii List ZArith Lia Bool.
From Stdlib Require Import DecimalString.
Import ListNotations.

Local Open Scope list_scope.
Local Open Scope string_scope.

(* ===================================================================== *)
(** ** Python strings                                                    *)
(* ===================================================================== *)

Module PyStr.

(** The characters the script names. *)
Definition nl : ascii := ascii_of_nat 10.
Definition backtick : ascii := "`"%char.
Definition fence : string := "```".

(** [s.startswith(p)] *)
Fixpoint startswith (s p : string) {struct p} : bool :=
  match p with
  | EmptyString => true
  | String a p' =>
      match s with
      | EmptyString => false
      | String b s' => Ascii.eqb a b && startswith s' p'
      end
  end.

(** [s.split(sep)] for a one-character separator: never the empty list,
    [''.split(sep) == ['']]. *)
Fixpoint split (sep : ascii) (s : string) : list string :=
  match s with
  | EmptyString => [EmptyString]
  | String c r =>
      if Ascii.eqb c sep then EmptyString :: split sep r
      else match split sep r with
           | h :: t => String c h :: t
           | [] => [String c EmptyString]
           end
  end.

(** [sep.join(parts)] *)
Definition join (sep : string) (parts : list string) : string :=
  String.concat sep parts.

(** [c.isspace()] on U+0000..U+00FF: TAB..CR, FS..US, SPACE, NEL, NBSP. *)
Definition isspace (c : ascii) : bool :=
  let n := N_of_ascii c in
  ((9 <=? n) && (n <=? 13) || (28 <=? n) && (n <=? 32)
   || (n =? 133) || (n =? 160))%N.

Fixpoint lstrip (s : string) : string :=
  match s with
  | EmptyString => EmptyString
  | String c r => if isspace c then lstrip r else s
  end.

Fixpoint rstrip (s : string) : string :=
  match s with
  | EmptyString => EmptyString
  | String c r =>
      match rstrip r with
      | EmptyString => if isspace c then EmptyString else String c EmptyString
      | r' => String c r'
      end
  end.

(** [s.strip()] *)
Definition strip (s : string) : string := rstrip (lstrip s).

(** [c.lower()] on U+0000..U+00FF: A..Z and the capitals U+00C0..U+00DE
    (the multiplication sign U+00D7 apart) move up by 32. *)
Definition lower_char (c : ascii) : ascii :=
  let n := N_of_ascii c in
  if ((65 <=? n) && (n <=? 90)
      || (192 <=? n) && (n <=? 222) && negb (n =? 215))%N
  then ascii_of_N (n + 32) else c.

Fixpoint lower (s : string) : string :=
  match s with
  | EmptyString => EmptyString
  | String c r => String (lower_char c) (lower r)
  end.

(** [needle in s] *)
Fixpoint contains (s needle : string) : bool :=
  startswith s needle ||
  match s with
  | EmptyString => false
  | String _ r => contains r needle
  end.

(** [s.rfind(c)] as an option: the index of the last [c]. *)
Fixpoint rfind (c : ascii) (s : string) : option nat :=
  match s with
  | EmptyString => None
  | String a r =>
      match rfind c r with
      | Some i => Some (S i)
      | None => if Ascii.eqb a c then Some 0 else None
      end
  end.

(** [s[i:]] *)
Fixpoint drop (i : nat) (s : string) : string :=
  match i, s with
  | O, _ => s
  | S j, EmptyString => EmptyString
  | S j, String _ r => drop j r
  end.

(** [str(n)] for an [int]. *)
Definition of_int (n : Z) : string := NilZero.string_of_int (Z.to_int n).

(** The predicate "no character of [s] is [c]". *)
Fixpoint lacks (c : ascii) (s : string) : bool :=
  match s with
  | EmptyString => true
  | String a r => negb (Ascii.eqb a c) && lacks c r
  end.

End PyStr.

(* ===================================================================== *)
(** ** pathlib: the suffix of a POSIX path                               *)
(* ===================================================================== *)

Module PosixPath.
Import PyStr.

(** The parts [pathlib] keeps of a path: the components between slashes,
    the empty ones and ["."] dropped. *)
Definition kept (part : string) : bool :=
  negb (String.eqb part EmptyString) && negb (String.eqb part ".").

Definition parts (path : string) : list string :=
  filter kept (split "/"%char path).

(** [Path(path).name]: the last part, the empty string when there is none. *)
Definition name (path : string) : string := last (parts path) EmptyString.

(** [Path(path).suffix]: from the last dot of the name on, when that dot is
    neither the first nor the last character of the name. *)
Definition suffix (path : string) : string :=
  let n := name path in
  match rfind "."%char n with
  | Some i =>
      if (0 <? i)%nat && (i <? String.length n - 1)%nat then drop i n else EmptyString
  | None => EmptyString
  end.

End PosixPath.

(* ===================================================================== *)
(** ** get_media_type                                                    *)
(* ===================================================================== *)

(** [d.get(key, default)] on a dict written as a literal. *)
Fixpoint table_get (d : list (string * string)) (key default : string) : string :=
  match d with
  | [] => default
  | (k, v) :: rest => if String.eqb k key then v else table_get rest key default
  end.

Definition media_types : list (string * string) :=
  [ (".png", "image/png");
    (".jpg", "image/jpeg");
    (".jpeg", "image/jpeg");
    (".gif", "image/gif");
    (".webp", "image/webp") ].

Definition get_media_type (image_path : string) : string :=
  let ext := PyStr.lower (PosixPath.suffix image_path) in
  table_get media_types ext "image/png".

(* ===================================================================== *)
(** ** The fence-stripping step of find_element (lines 107-120)          *)
(* ===================================================================== *)

(** The [for line in lines] loop, with its two variables [inside] and
    [json_lines]; [continue] goes on with the next line, [break] returns. *)
Fixpoint fence_loop (lines : list string) (inside : bool)
                    (json_lines : list string) : list string :=
  match lines with
  | [] => json_lines
  | line :: rest =>
      if PyStr.startswith line PyStr.fence && negb inside then
        fence_loop rest true json_lines
      else if PyStr.startswith line PyStr.fence && inside then
        json_lines
      else if inside then
        fence_loop rest inside (json_lines ++ [line])%list
      else
        fence_loop rest inside json_lines
  end.

Definition strip_fence (response_text : string) : string :=
  if PyStr.startswith response_text PyStr.fence then
    let lines := PyStr.split PyStr.nl response_text in
    PyStr.join (String PyStr.nl EmptyString) (fence_loop lines false [])
  else response_text.

(* ===================================================================== *)
(** ** base64.standard_b64encode                                         *)
(* ===================================================================== *)

Module Base64.

Definition alphabet : string :=
  "ABCDEFGHIJKLMNOPQRSTUVWXYZabcdefghijklmnopqrstuvwxyz0123456789+/".

Definition digit (n : N) : ascii :=
  match String.get (N.to_nat n) alphabet with
  | Some c => c
  | None => "="%char
  end.

Definition pad : ascii := "="%char.

(** Three bytes give four digits; a last group of one or two bytes is
    padded with [=]. *)
Fixpoint encode (bs : list N) : string :=
  match bs with
  | [] => EmptyString
  | [a] =>
      String (digit (a / 4))
        (String (digit ((a mod 4) * 16)) (String pad (String pad EmptyString)))
  | [a; b] =>
      String (digit (a / 4))
        (String (digit ((a mod 4) * 16 + b / 16))
           (String (digit ((b mod 16) * 4)) (String pad EmptyString)))
  | a :: b :: c :: rest =>
      String (digit (a / 4))
        (String (digit ((a mod 4) * 16 + b / 16))
           (String (digit ((b mod 16) * 4 + c / 64))
              (String (digit (c mod 64)) (encode rest))))
  end%N.

Definition standard_b64encode (data : list Byte.byte) : string :=
  encode (map Byte.to_N data).

End Base64.

(* ===================================================================== *)
(** ** json.dumps: the text of a string                                  *)
(* ===================================================================== *)

Module JsonText.

Definition dquote : ascii := ascii_of_nat 34.
Definition backslash : ascii := ascii_of_nat 92.
Definition dq : string := String dquote EmptyString.

Definition hex_digit (n : N) : ascii :=
  match String.get (N.to_nat n) "0123456789abcdef" with
  | Some c => c
  | None => "0"%char
  end.

(** [ESCAPE_DCT] and the [\uXXXX] replacement of [json.encoder], with
    [ensure_ascii] on: the quote and the backslash get a backslash, the
    controls with a short name have it, and whatever else lies outside
    SPACE..TILDE is written [\u00xx]. *)
Definition escape_char (c : ascii) : string :=
  let n := N_of_ascii c in
  if (n =? 34)%N then String backslash dq
  else if (n =? 92)%N then String backslash (String backslash EmptyString)
  else if (n =? 10)%N then String backslash "n"
  else if (n =? 13)%N then String backslash "r"
  else if (n =? 9)%N then String backslash "t"
  else if (n =? 8)%N then String backslash "b"
  else if (n =? 12)%N then String backslash "f"
  else if ((n <? 32) || (126 <? n))%N then
    String backslash
      ("u00" ++ String (hex_digit (n / 16)) (String (hex_digit (n mod 16)) EmptyString))
  else String c EmptyString.

Fixpoint escape (s : string) : string :=
  match s with
  | EmptyString => EmptyString
  | String c r => escape_char c ++ escape r
  end.

(** [py_encode_basestring_ascii] *)
Definition encode_str (s : string) : string := dq ++ escape s ++ dq.

End JsonText.

(* ===================================================================== *)
(** ** Exceptions, the outside world and the effects of a run            *)
(* ===================================================================== *)

(** The exception classes the handlers of [main] tell apart.
    [anthropic.AuthenticationError] is a subclass of [anthropic.APIError];
    [APIError] stands for the other API errors, [OtherException] for every
    other subclass of [Exception]. *)
Inductive exn_class : Type :=
  | AuthenticationError
  | APIError
  | JSONDecodeError
  | OtherException.

(** An exception: its class and [str(e)]. *)
Record exn : Type := Exn { exn_kind : exn_class; exn_str : string }.

Definition isinstance_APIError (e : exn) : bool :=
  match exn_kind e with
  | AuthenticationError | APIError => true
  | _ => false
  end.

Definition isinstance_AuthenticationError (e : exn) : bool :=
  match exn_kind e with
  | AuthenticationError => true
  | _ => false
  end.

Definition isinstance_JSONDecodeError (e : exn) : bool :=
  match exn_kind e with
  | JSONDecodeError => true
  | _ => false
  end.

(** The one message of a request: an image block and a text block. *)
Record request : Type := Request {
  req_model : string;
  req_max_tokens : Z;
  req_media_type : string;
  req_data : string;
  req_text : string
}.

(** A block of [response.content]: a text block has a [text] attribute,
    reading it from another block raises [AttributeError]. *)
Inductive content_block : Type :=
  | TextBlock (text : string)
  | NonTextBlock (attribute_error : string).

Record World : Type := {
  (** [Path(p).exists()] *)
  path_exists : string -> bool;
  (** [Image.open(p).size] *)
  image_size : string -> exn + (Z * Z);
  (** [open(p, 'rb').read()] *)
  file_read : string -> exn + list Byte.byte;
  (** [anthropic.Anthropic()]: the exception it raises, if any *)
  new_client : option exn;
  (** [client.messages.create(...)]: the [content] of the response *)
  messages_create : request -> exn + list content_block
}.

Inductive event : Type :=
  | Print (text : string)
  | OpenImage (path : string)
  | ReadFile (path : string)
  | NewClient
  | CreateMessage (req : request).

(** A computation that may raise: the effects it had, and its outcome. *)
Definition run (A : Type) : Type := (list event * (exn + A))%type.

Definition ret {A} (a : A) : run A := ([], inr a).
Definition raise {A} (e : exn) : run A := ([], inl e).
Definition emit (ev : event) : run unit := ([ev], inr tt).
Definition lift {A} (r : exn + A) : run A := ([], r).

Definition bind {A B} (m : run A) (k : A -> run B) : run B :=
  match m with
  | (t, inl e) => (t, inl e)
  | (t, inr a) => let (t', r) := k a in ((t ++ t')%list, r)
  end.

Declare Scope run_scope.
Delimit Scope run_scope with run.
Notation "x <- m ;; k" := (bind m (fun x => k))
  (at level 61, m at next level, right associativity) : run_scope.
Notation "m ;;; k" := (bind m (fun _ => k))
  (at level 61, right associativity) : run_scope.

(** [print(text)] *)
Definition print (text : string) : run unit := emit (Print text).

(** How the process ends: [sys.exit(code)] or the end of the script
    ([Exited 0]), or an exception no handler took. *)
Inductive termination : Type :=
  | Exited (code : Z)
  | Uncaught (e : exn).

(** The stdout of a run: the texts of its [print] calls, in order. *)
Fixpoint stdout (t : list event) : list string :=
  match t with
  | [] => []
  | Print s :: r => s :: stdout r
  | _ :: r => stdout r
  end.

(** The parsed command line. *)
Record Args : Type := {
  arg_image : string;
  arg_find : option string;
  arg_describe : bool;
  arg_json : bool
}.

(* ===================================================================== *)
(** ** The script                                                        *)
(* ===================================================================== *)

Section Script.

Local Open Scope string_scope.
Local Open Scope run_scope.

(** Python's [float], kept abstract: the script never computes with one.
    [floatstr] is the text [json.dumps] writes for it, [float_bool] its
    truth value. *)
Variable pyfloat : Type.
Variable floatstr : pyfloat -> string.
Variable float_bool : pyfloat -> bool.

(** What [json.loads] returns; a [dict] keeps its keys in insertion order. *)
#[warnings="-register-all"]
Inductive value : Type :=
  | VNone
  | VBool (b : bool)
  | VInt (n : Z)
  | VFloat (f : pyfloat)
  | VStr (s : string)
  | VList (items : list value)
  | VDict (items : list (string * value)).

(** [json.loads(text)]: the decoded value, or the exception raised. *)
Variable json_loads : string -> exn + value.

(** [str(v)], as an f-string formats a value. *)
Variable py_str : value -> string.

(** *** dict operations *)

(** [d.get(key)], [None] of the option when the key is absent *)
Fixpoint dict_lookup (d : list (string * value)) (key : string) : option value :=
  match d with
  | [] => None
  | (k, v) :: rest => if String.eqb k key then Some v else dict_lookup rest key
  end.

(** [key in d] *)
Definition dict_contains (d : list (string * value)) (key : string) : bool :=
  match dict_lookup d key with
  | Some _ => true
  | None => false
  end.

(** [d.get(key, default)] *)
Definition dict_get (d : list (string * value)) (key : string) (default : value) : value :=
  match dict_lookup d key with
  | Some v => v
  | None => default
  end.

(** [d[key] = v]: a key already there keeps its place, a new one goes last *)
Fixpoint dict_setitem (d : list (string * value)) (key : string) (v : value)
  : list (string * value) :=
  match d with
  | [] => [(key, v)]
  | (k, v') :: rest =>
      if String.eqb k key then (k, v) :: rest
      else (k, v') :: dict_setitem rest key v
  end.

(** [bool(v)] *)
Definition truthy (v : value) : bool :=
  match v with
  | VNone => false
  | VBool b => b
  | VInt n => negb (n =? 0)%Z
  | VFloat f => float_bool f
  | VStr s => negb (String.eqb s EmptyString)
  | VList items => match items with [] => false | _ => true end
  | VDict items => match items with [] => false | _ => true end
  end.

(** [type(v).__name__] *)
Definition type_name (v : value) : string :=
  match v with
  | VNone => "NoneType"
  | VBool _ => "bool"
  | VInt _ => "int"
  | VFloat _ => "float"
  | VStr _ => "str"
  | VList _ => "list"
  | VDict _ => "dict"
  end.

(** *** json.dumps *)

Definition spaces (n : nat) : string := PyStr.join EmptyString (repeat " " n).

(** The line break and indentation before an item at [level]. *)
Definition newline_indent (indent level : nat) : string :=
  String PyStr.nl (spaces (indent * level)).

Definition item_open (indent : option nat) (level : nat) : string :=
  match indent with
  | Some k => newline_indent k (S level)
  | None => EmptyString
  end.

Definition item_separator (indent : option nat) (level : nat) : string :=
  match indent with
  | Some k => "," ++ newline_indent k (S level)
  | None => ", "
  end.

Definition item_close (indent : option nat) (level : nat) : string :=
  match indent with
  | Some k => newline_indent k level
  | None => EmptyString
  end.

(** [json.dumps(v, indent=indent)], at nesting depth [level]. *)
Fixpoint encode (indent : option nat) (level : nat) (v : value) : string :=
  match v with
  | VNone => "null"
  | VBool true => "true"
  | VBool false => "false"
  | VInt n => PyStr.of_int n
  | VFloat f => floatstr f
  | VStr s => JsonText.encode_str s
  | VList [] => "[]"
  | VList items =>
      "[" ++ item_open indent level
          ++ PyStr.join (item_separator indent level)
               (map (encode indent (S level)) items)
          ++ item_close indent level ++ "]"
  | VDict [] => "{}"
  | VDict items =>
      "{" ++ item_open indent level
          ++ PyStr.join (item_separator indent level)
               (map (fun kv : string * value =>
                       let (k, x) := kv in
                       JsonText.encode_str k ++ ": " ++ encode indent (S level) x)
                    items)
          ++ item_close indent level ++ "}"
  end.

Definition json_dumps (v : value) : string := encode None 0 v.
Definition json_dumps_indent (indent : nat) (v : value) : string :=
  encode (Some indent) 0 v.

(** *** The steps of find_element and describe_screen *)

Definition get_image_dimensions (w : World) (image_path : string) : run (Z * Z) :=
  emit (OpenImage image_path) ;;; lift (image_size w image_path).

Definition encode_image (w : World) (image_path : string) : run string :=
  emit (ReadFile image_path) ;;;
  data <- lift (file_read w image_path) ;;
  ret (Base64.standard_b64encode data).

Definition model_id : string := "claude-sonnet-4-6".

Definition NL : string := String PyStr.nl EmptyString.

Definition find_prompt (width height : Z) (element_description : string) : string :=
  "Look at this screenshot. Find the UI element described as: '"
    ++ element_description ++ "'." ++ NL
  ++ "Return JSON with these fields:" ++ NL
  ++ "  - found (bool): whether you can see the element" ++ NL
  ++ "  - x (int): pixel X coordinate of the element's center" ++ NL
  ++ "  - y (int): pixel Y coordinate of the element's center" ++ NL
  ++ "  - confidence (string): 'high', 'medium', or 'low'" ++ NL
  ++ "  - description (string): brief description of what you see at that location" ++ NL
  ++ NL
  ++ "The image is " ++ PyStr.of_int width ++ "x" ++ PyStr.of_int height
  ++ " pixels. Coordinates should be within these bounds." ++ NL
  ++ "Return ONLY valid JSON, no other text.".

Definition describe_prompt : string :=
  "Describe what you see on this Linux desktop screenshot in 2-4 sentences. "
  ++ "Include: what applications are open, what content is visible, any notable UI state.".

Definition vision_request (media_type image_data prompt : string) : request :=
  {| req_model := model_id;
     req_max_tokens := 512;
     req_media_type := media_type;
     req_data := image_data;
     req_text := prompt |}.

Definition create_message (w : World) (req : request) : run (list content_block) :=
  emit (CreateMessage req) ;;; lift (messages_create w req).

(** [response.content[0].text] *)
Definition first_text (content : list content_block) : run string :=
  match content with
  | [] => raise (Exn OtherException "list index out of range")
  | TextBlock text :: _ => ret text
  | NonTextBlock msg :: _ => raise (Exn OtherException msg)
  end.

(** [x == s] for a string [s] *)
Definition is_str (s : string) (x : value) : bool :=
  match x with
  | VStr t => String.eqb t s
  | _ => false
  end.

(** [key in result], for whatever [json.loads] returned; the texts of the
    [TypeError]s here and below are those of CPython 3.12 *)
Definition contains_key (result : value) (key : string) : run bool :=
  match result with
  | VDict d => ret (dict_contains d key)
  | VList items => ret (existsb (is_str key) items)
  | VStr s => ret (PyStr.contains s key)
  | _ => raise (Exn OtherException
                  ("argument of type '" ++ type_name result ++ "' is not iterable"))
  end.

(** [result[key] = v] *)
Definition setitem (result : value) (key : string) (v : value) : run value :=
  match result with
  | VDict d => ret (VDict (dict_setitem d key v))
  | VList _ => raise (Exn OtherException
                        "list indices must be integers or slices, not str")
  | _ => raise (Exn OtherException
                  ("'" ++ type_name result ++ "' object does not support item assignment"))
  end.

(** [result.get(key, default)] *)
Definition get (result : value) (key : string) (default : value) : run value :=
  match result with
  | VDict d => ret (dict_get d key default)
  | _ => raise (Exn OtherException
                  ("'" ++ type_name result ++ "' object has no attribute 'get'"))
  end.

(** Lines 124-128 of [find_element]: [if "element" not in result:
    result["element"] = element_description], then [return result]. *)
Definition ensure_element (result : value) (element_description : string)
  : run value :=
  present <- contains_key result "element" ;;
  if negb present then setitem result "element" (VStr element_description)
  else ret result.

Definition find_element (w : World) (image_path element_description : string)
  : run value :=
  dims <- get_image_dimensions w image_path ;;
  image_data <- encode_image w image_path ;;
  let media_type := get_media_type image_path in
  let prompt := find_prompt (fst dims) (snd dims) element_description in
  content <- create_message w (vision_request media_type image_data prompt) ;;
  text <- first_text content ;;
  let response_text := PyStr.strip text in
  let response_text := strip_fence response_text in
  result <- lift (json_loads response_text) ;;
  ensure_element result element_description.

Definition describe_screen (w : World) (image_path : string) : run string :=
  image_data <- encode_image w image_path ;;
  let media_type := get_media_type image_path in
  content <- create_message w (vision_request media_type image_data describe_prompt) ;;
  text <- first_text content ;;
  ret (PyStr.strip text).

(** *** main *)

(** [bool(args.find)]: an option that was not given, or given empty, is
    false. *)
Definition given (o : option string) : bool :=
  match o with
  | Some s => negb (String.eqb s EmptyString)
  | None => false
  end.

Definition text_of (o : option string) : string :=
  match o with
  | Some s => s
  | None => EmptyString
  end.

(** [{flag: False, "error": message}] *)
Definition error_object (flag message : string) : value :=
  VDict [(flag, VBool false); ("error", VStr message)].

(** The [if args.find:] branch of the [try] block. *)
Definition find_mode (w : World) (args : Args) (element : string) : run unit :=
  result <- find_element w (arg_image args) element ;;
  if arg_json args then
    print (json_dumps_indent 2 result)
  else
    found <- get result "found" (VBool false) ;;
    if truthy found then
      description <- get result "description" (VStr element) ;;
      print ("Found: " ++ py_str description) ;;;
      x <- get result "x" (VStr "?") ;;
      y <- get result "y" (VStr "?") ;;
      print ("Coordinates: (" ++ py_str x ++ ", " ++ py_str y ++ ")") ;;;
      confidence <- get result "confidence" (VStr "unknown") ;;
      print ("Confidence: " ++ py_str confidence) ;;;
      print (json_dumps result)
    else
      print ("Not found: " ++ element) ;;;
      print (json_dumps result).

(** The [elif args.describe:] branch. *)
Definition describe_mode (w : World) (args : Args) : run unit :=
  description <- describe_screen w (arg_image args) ;;
  if arg_json args then
    print (json_dumps_indent 2
             (VDict [("success", VBool true);
                     ("description", VStr description);
                     ("error", VNone)]))
  else
    print description.

Definition try_block (w : World) (args : Args) : run unit :=
  if given (arg_find args) then find_mode w args (text_of (arg_find args))
  else if arg_describe args then describe_mode w args
  else ret tt.

(** The three [except] clauses, in their order; each prints and calls
    [sys.exit(1)]. *)
Definition handler (e : exn) : list event * termination :=
  if isinstance_APIError e then
    ([Print (json_dumps (error_object "found" ("Anthropic API error: " ++ exn_str e)))],
     Exited 1)
  else if isinstance_JSONDecodeError e then
    ([Print (json_dumps (error_object "found"
               ("Failed to parse vision response as JSON: " ++ exn_str e)))],
     Exited 1)
  else
    ([Print (json_dumps (error_object "found" ("Unexpected error: " ++ exn_str e)))],
     Exited 1).

Definition main (w : World) (args : Args) : list event * termination :=
  if negb (path_exists w (arg_image args)) then
    ([Print (json_dumps (error_object "success"
               ("Image file not found: " ++ arg_image args)))],
     Exited 1)
  else if negb (given (arg_find args)) && negb (arg_describe args) then
    ([Print (json_dumps (error_object "success"
               "Specify --find 'element' or --describe"))],
     Exited 1)
  else
    match new_client w with
    | Some e =>
        if isinstance_AuthenticationError e then
          ([NewClient;
            Print (json_dumps (error_object "success"
                     "ANTHROPIC_API_KEY not set or invalid"))],
           Exited 1)
        else ([NewClient], Uncaught e)
    | None =>
        match try_block w args with
        | (t, inr _) => (NewClient :: t, Exited 0)
        | (t, inl e) =>
            let (t', fin) := handler e in ((NewClient :: t) ++ t', fin)%list
        end
    end.

End Script.

Arguments VNone {pyfloat}.
Arguments VBool {pyfloat} b.
Arguments VInt {pyfloat} n.
Arguments VFloat {pyfloat} f.
Arguments VStr {pyfloat} s.
Arguments VList {pyfloat} items.
Arguments VDict {pyfloat} items.
Arguments dict_lookup {pyfloat} d key.
Arguments dict_contains {pyfloat} d key.
Arguments dict_get {pyfloat} d key default.
Arguments dict_setitem {pyfloat} d key v.
Arguments error_object {pyfloat} flag message.
Arguments is_str {pyfloat} s x.
Arguments type_name {pyfloat} v.
Arguments contains_key {pyfloat} result key.
Arguments setitem {pyfloat} result key v.
Arguments get {pyfloat} result key default.
Arguments ensure_element {pyfloat} result element_description.
Arguments encode {pyfloat} floatstr indent level v.
Arguments json_dumps {pyfloat} floatstr v.
Arguments json_dumps_indent {pyfloat} floatstr indent v.
Arguments truthy {pyfloat} float_bool v.
Arguments find_element {pyfloat} json_loads w image_path element_description.
Arguments find_mode {pyfloat} floatstr float_bool json_loads py_str w args element.
Arguments describe_mode {pyfloat} floatstr w args.
Arguments try_block {pyfloat} floatstr float_bool json_loads py_str w args.
Arguments handler {pyfloat} floatstr e.
Arguments main {pyfloat} floatstr float_bool json_loads py_str w args.

(* ===================================================================== *)
(** ** A small world to run the script in                                *)
(* ===================================================================== *)

Module Sample.

(** Floats do not occur in the sample replies. *)
Definition pyfloat : Type := Empty_set.
Definition floatstr (f : pyfloat) : string := match f with end.
Definition float_bool (f : pyfloat) : bool := match f with end.

Definition reply_found : string :=
  "{" ++ JsonText.dq ++ "found" ++ JsonText.dq ++ ": true, "
      ++ JsonText.dq ++ "x" ++ JsonText.dq ++ ": 10}".
Definition reply_missing : string :=
  "{" ++ JsonText.dq ++ "found" ++ JsonText.dq ++ ": false}".
Definition reply_echo : string :=
  "{" ++ JsonText.dq ++ "element" ++ JsonText.dq ++ ": "
      ++ JsonText.dq ++ "OK" ++ JsonText.dq ++ "}".

(** A decoder for the sample replies only: it knows three texts and takes
    every other one for malformed. *)
Definition json_loads (text : string) : exn + value pyfloat :=
  if String.eqb text reply_found then
    inr (VDict [("found", VBool true); ("x", VInt 10)])
  else if String.eqb text reply_missing then
    inr (VDict [("found", VBool false)])
  else if String.eqb text reply_echo then
    inr (VDict [("element", VStr "OK")])
  else inl (Exn JSONDecodeError "Expecting value: line 1 column 1 (char 0)").

(** [str] on the values of the sample replies. *)
Definition py_str (v : value pyfloat) : string :=
  match v with
  | VStr s => s
  | VInt n => PyStr.of_int n
  | VBool true => "True"
  | VBool false => "False"
  | _ => "None"
  end.

(** One file exists, a two-byte one of size 4x3; the service answers
    [answer] to every request. *)
Definition world (answer : string) : World :=
  {| path_exists := fun p => String.eqb p "/tmp/shot.png";
     image_size := fun _ => inr (4, 3)%Z;
     file_read := fun _ => inr [Byte.x4d; Byte.x61];
     new_client := None;
     messages_create := fun _ => inr [TextBlock answer] |}.

Definition args_find (element : string) (as_json : bool) : Args :=
  {| arg_image := "/tmp/shot.png";
     arg_find := Some element;
     arg_describe := false;
     arg_json := as_json |}.

Definition args_describe (as_json : bool) : Args :=
  {| arg_image := "/tmp/shot.png";
     arg_find := None;
     arg_describe := true;
     arg_json := as_json |}.

Definition run_main (answer : string) (args : Args) : list event * termination :=
  main floatstr float_bool json_loads py_str (world answer) args.

End Sample.

(* ===================================================================== *)
(** ** The situations the properties speak of                            *)
(* ===================================================================== *)

(** No line of [text] starts with a fence. *)
Definition fence_free (text : string) : bool :=
  forallb (fun line => negb (PyStr.startswith line PyStr.fence))
          (PyStr.split PyStr.nl text).

(** The image at [path] loads, and the service answers the find request
    for [element] with a response whose first block is the text [raw]. *)
Definition find_reply (w : World) (path element raw : string) : Prop :=
  exists width height data more,
    image_size w path = inr (width, height) /\
    file_read w path = inr data /\
    messages_create w
      (vision_request (get_media_type path) (Base64.standard_b64encode data)
                      (find_prompt width height element))
    = inr (TextBlock raw :: more).

(** The same for the describe request. *)
Definition describe_reply (w : World) (path raw : string) : Prop :=
  exists data more,
    file_read w path = inr data /\
    messages_create w
      (vision_request (get_media_type path) (Base64.standard_b64encode data)
                      describe_prompt)
    = inr (TextBlock raw :: more).

(** What [find_element] does once the reply text [raw] is there: decode
    it and make sure of the [element] key. *)
Definition decoded {pyfloat : Type} (json_loads : string -> exn + value pyfloat)
           (raw element : string) : exn + value pyfloat :=
  match json_loads (strip_fence (PyStr.strip raw)) with
  | inl e => inl e
  | inr result => snd (ensure_element result element)
  end.

(** The object [o] after [if "element" not in o: o["element"] = element]. *)
Definition with_element {pyfloat : Type} (o : list (string * value pyfloat))
           (element : string) : list (string * value pyfloat) :=
  if dict_contains o "element" then o
  else dict_setitem o "element" (VStr element).

(** The line [{"flag": false, "error": "message"}], the message escaped
    as [json.dumps] escapes a string. *)
Definition error_line (flag message : string) : string :=
  "{" ++ JsonText.dq ++ flag ++ JsonText.dq ++ ": false, "
      ++ JsonText.dq ++ "error" ++ JsonText.dq ++ ": "
      ++ JsonText.encode_str message ++ "}".

(** The four lines of the object [{"success": true, "description":
    "text", "error": null}] printed with [indent=2]. *)
Definition description_lines (text : string) : string :=
  "{" ++ NL
  ++ "  " ++ JsonText.dq ++ "success" ++ JsonText.dq ++ ": true," ++ NL
  ++ "  " ++ JsonText.dq ++ "description" ++ JsonText.dq ++ ": "
         ++ JsonText.encode_str text ++ "," ++ NL
  ++ "  " ++ JsonText.dq ++ "error" ++ JsonText.dq ++ ": null" ++ NL
  ++ "}".

(** [main] gets as far as the [try] block: the image exists and the client
    is built. *)
Definition ready (w : World) (args : Args) : Prop :=
  path_exists w (arg_image args) = true /\ new_client w = None.

(* ===================================================================== *)
(** ** Further observations of a run                                     *)
(* ===================================================================== *)

(** The requests a run sent, the images it had Pillow open and the files
    it read, each in order. *)
Definition requests (t : list event) : list request :=
  flat_map (fun ev => match ev with CreateMessage req => [req] | _ => [] end) t.

Definition opened (t : list event) : list string :=
  flat_map (fun ev => match ev with OpenImage p => [p] | _ => [] end) t.

Definition files_read (t : list event) : list string :=
  flat_map (fun ev => match ev with ReadFile p => [p] | _ => [] end) t.

(** The words the [except] clause that takes [e] puts before [str(e)]. *)
Definition handler_label (e : exn) : string :=
  if isinstance_APIError e then "Anthropic API error: "
  else if isinstance_JSONDecodeError e then
    "Failed to parse vision response as JSON: "
  else "Unexpected error: ".

(** The command line asks for find mode with a non-empty description. *)
Definition finds (args : Args) (element : string) : Prop :=
  arg_find args = Some element /\ element <> EmptyString.

(** The command line asks for describe mode: [--describe], and [--find]
    absent or empty. *)
Definition describes (args : Args) : Prop :=
  given (arg_find args) = false /\ arg_describe args = true.

(** The image at [path] loads and the service gives [answer] to the find
    request for [element]: an exception, or the content of a response. *)
Definition find_answer (w : World) (path element : string)
           (answer : exn + list content_block) : Prop :=
  exists width height data,
    image_size w path = inr (width, height) /\
    file_read w path = inr data /\
    messages_create w
      (vision_request (get_media_type path) (Base64.standard_b64encode data)
                      (find_prompt width height element))
    = answer.

(** The same for the describe request, which needs the file read only. *)
Definition describe_answer (w : World) (path : string)
           (answer : exn + list content_block) : Prop :=
  exists data,
    file_read w path = inr data /\
    messages_create w
      (vision_request (get_media_type path) (Base64.standard_b64encode data)
                      describe_prompt)
    = answer.

(** The request of the run, in whichever mode, is sent and gets [answer]. *)
Definition answered (w : World) (args : Args)
           (answer : exn + list content_block) : Prop :=
  (exists element,
      finds args element /\ find_answer w (arg_image args) element answer) \/
  (describes args /\ describe_answer w (arg_image args) answer).

(** The first and the last character of a text, if any. *)
Definition first_char (s : string) : option ascii :=
  match s with
  | EmptyString => None
  | String c _ => Some c
  end.

Fixpoint last_char (s : string) : option ascii :=
  match s with
  | EmptyString => None
  | String c EmptyString => Some c
  | String _ r => last_char r
  end.

(** Worlds whose oracles answer the same to every question, to run the
    failing paths in. *)
Module Cases.

Definition world (size : exn + (Z * Z)) (read : exn + list Byte.byte)
           (client : option exn) (answer : exn + list content_block) : World :=
  {| path_exists := fun _ => true;
     image_size := fun _ => size;
     file_read := fun _ => read;
     new_client := client;
     messages_create := fun _ => answer |}.

(** A world where the image loads and the service answers [answer]. *)
Definition answering (answer : exn + list content_block) : World :=
  world (inr (4, 3)%Z) (inr [Byte.x4d; Byte.x61]) None answer.

(** A decoder that returns [v] for every text. *)
Definition loads_to (v : value Sample.pyfloat) (text : string)
  : exn + value Sample.pyfloat := inr v.

Definition run (loads : string -> exn + value Sample.pyfloat)
           (w : World) (args : Args) : list event * termination :=
  main Sample.floatstr Sample.float_bool loads Sample.py_str w args.

End Cases.

(* ===================================================================== *)
(** ** Lemmas on strings                                                 *)
(* ===================================================================== *)

Section StringFacts.
Import PyStr.

Lemma split_nonempty (sep : ascii) (s : string) : split sep s <> [].
Proof.
  destruct s as [|c r]; simpl; [discriminate|].
  destruct (Ascii.eqb c sep); [discriminate|].
  destruct (split sep r); discriminate.
Qed.

Lemma split_cons_other (sep c : ascii) (s : string) :
  Ascii.eqb c sep = false ->
  exists h t, split sep s = h :: t /\ split sep (String c s) = String c h :: t.
Proof.
  intros Hc. simpl. rewrite Hc.
  destruct (split sep s) as [|h t] eqn:E.
  - exfalso. exact (split_nonempty sep s E).
  - exists h, t. split; reflexivity.
Qed.

(** Splitting at a separator splits the list of parts. *)
Lemma split_app (sep : ascii) (a b : string) :
  split sep (a ++ String sep b) = (split sep a ++ split sep b)%list.
Proof.
  induction a as [|c r IH]; simpl.
  - rewrite Ascii.eqb_refl. reflexivity.
  - destruct (Ascii.eqb c sep).
    + rewrite IH. reflexivity.
    + rewrite IH.
      destruct (split sep r) as [|h t] eqn:E.
      * exfalso. exact (split_nonempty sep r E).
      * reflexivity.
Qed.

Lemma split_lacks (sep : ascii) (s : string) :
  lacks sep s = true -> split sep s = [s].
Proof.
  induction s as [|c r IH]; simpl; intros H; [reflexivity|].
  apply andb_true_iff in H. destruct H as [Hc Hr].
  apply negb_true_iff in Hc. rewrite Hc, (IH Hr). reflexivity.
Qed.

Lemma join_cons (sep x : string) (c : ascii) (t : list string) :
  join sep (String c x :: t) = String c (join sep (x :: t)).
Proof. unfold join. simpl. destruct t; reflexivity. Qed.

(** [sep.join(s.split(sep)) == s] *)
Lemma join_split (sep : ascii) (s : string) :
  join (String sep EmptyString) (split sep s) = s.
Proof.
  induction s as [|c r IH]; [reflexivity|].
  simpl. destruct (Ascii.eqb c sep) eqn:Hc.
  - apply Ascii.eqb_eq in Hc. subst c.
    destruct (split sep r) as [|h t] eqn:E.
    + exfalso. exact (split_nonempty sep r E).
    + unfold join in *. simpl in *. rewrite IH. reflexivity.
  - destruct (split sep r) as [|h t] eqn:E.
    + exfalso. exact (split_nonempty sep r E).
    + rewrite join_cons, IH. reflexivity.
Qed.

(** The first part of a text that starts with [p] starts with [p]. *)
Lemma split_head (sep : ascii) (p s : string) :
  lacks sep p = true ->
  exists h t, split sep (p ++ s) = (p ++ h) :: t.
Proof.
  induction p as [|c r IH]; simpl; intros H.
  - destruct (split sep s) as [|h t] eqn:E.
    + exfalso. exact (split_nonempty sep s E).
    + exists h, t. reflexivity.
  - apply andb_true_iff in H. destruct H as [Hc Hr].
    apply negb_true_iff in Hc. rewrite Hc.
    destruct (IH Hr) as (h & t & E). rewrite E.
    exists h, t. reflexivity.
Qed.

Lemma startswith_app (p s : string) : startswith (p ++ s) p = true.
Proof.
  induction p as [|c r IH]; simpl; [reflexivity|].
  rewrite Ascii.eqb_refl. exact IH.
Qed.

(** A line that does not start with a fence does not start with one when
    a line break and more text follow it. *)
Lemma startswith_fence_line (x y : string) :
  startswith x fence = false ->
  startswith (x ++ String nl y) fence = false.
Proof.
  unfold fence.
  destruct x as [|c1 [|c2 [|c3 r]]]; cbn [startswith append]; intros H;
    repeat match goal with
           | |- context [Ascii.eqb "`" ?b] =>
               is_var b; destruct (Ascii.eqb "`" b); cbn [andb] in *
           end;
    try reflexivity; try discriminate; auto.
Qed.

Lemma startswith_fence_join (lines : list string) :
  forallb (fun line => negb (startswith line fence)) lines = true ->
  startswith (join (String nl EmptyString) lines) fence = false.
Proof.
  destruct lines as [|x t]; intros H; [reflexivity|].
  simpl in H. apply andb_true_iff in H. destruct H as [Hx _].
  apply negb_true_iff in Hx.
  unfold join. simpl. destruct t as [|y t'].
  - exact Hx.
  - simpl. apply startswith_fence_line. exact Hx.
Qed.

End StringFacts.

(* ===================================================================== *)
(** ** Lemmas on the fence loop                                          *)
(* ===================================================================== *)

Section FenceLoop.
Import PyStr.

Local Abbreviation plain := (fun line : string => negb (startswith line fence)).

(** The opening fence line switches [inside] on. *)
Lemma fence_loop_open (line : string) (rest acc : list string) :
  startswith line fence = true ->
  fence_loop (line :: rest) false acc = fence_loop rest true acc.
Proof. intros H. cbn [fence_loop]. rewrite H. reflexivity. Qed.

(** Inside, the lines that are no fences are collected in order. *)
Lemma fence_loop_collect (body rest acc : list string) :
  forallb plain body = true ->
  fence_loop (body ++ rest)%list true acc = fence_loop rest true (acc ++ body)%list.
Proof.
  revert acc. induction body as [|x t IH]; intros acc H.
  - rewrite app_nil_r. reflexivity.
  - cbn [forallb] in H. apply andb_true_iff in H. destruct H as [Hx Ht].
    apply negb_true_iff in Hx.
    cbn [app fence_loop]. rewrite Hx. cbn [andb].
    rewrite (IH _ Ht), <- app_assoc. reflexivity.
Qed.

(** Inside, the next fence line ends the loop. *)
Lemma fence_loop_close (line : string) (rest acc : list string) :
  startswith line fence = true ->
  fence_loop (line :: rest) true acc = acc.
Proof. intros H. cbn [fence_loop]. rewrite H. reflexivity. Qed.

(** The collected lines never start with a fence. *)
Lemma fence_loop_plain (lines : list string) :
  forall inside acc,
    forallb plain acc = true ->
    forallb plain (fence_loop lines inside acc) = true.
Proof.
  induction lines as [|x t IH]; intros inside acc H; cbn [fence_loop]; [exact H|].
  destruct (startswith x fence) eqn:Hx; destruct inside; cbn [andb negb]; auto.
  apply IH. rewrite forallb_app, H. cbn [forallb].
  rewrite Hx. reflexivity.
Qed.

Lemma strip_fence_plain (text : string) :
  startswith text fence = true ->
  startswith (strip_fence text) fence = false.
Proof.
  intros H. unfold strip_fence. rewrite H.
  apply startswith_fence_join. apply (fence_loop_plain _ false []). reflexivity.
Qed.

(** The first line of a text that starts with a fence starts with one. *)
Lemma first_line_fence (text : string) :
  startswith text fence = true ->
  exists first rest,
    split nl text = first :: rest /\ startswith first fence = true.
Proof.
  unfold fence. intros H.
  destruct text as [|c1 [|c2 [|c3 r]]]; cbn [startswith] in H;
    try discriminate;
    repeat match type of H with
           | context [Ascii.eqb ?a ?b] =>
               let E := fresh "E" in
               destruct (Ascii.eqb a b) eqn:E; cbn [andb] in H; try discriminate
           end.
  apply Ascii.eqb_eq in E, E0, E1. subst c1 c2 c3.
  destruct (split_head nl "```" r eq_refl) as (h & t & E).
  exists ("```" ++ h), t. split; [exact E|].
  apply (startswith_app "```").
Qed.

End FenceLoop.

(* ===================================================================== *)
(** ** Fence stripping                                                   *)
(* ===================================================================== *)

Section FenceStripping.
Import PyStr.

Lemma lacks_app (c : ascii) (a b : string) :
  lacks c (a ++ b) = lacks c a && lacks c b.
Proof.
  induction a as [|x r IH]; simpl; [reflexivity|].
  rewrite IH, andb_assoc. reflexivity.
Qed.

Lemma append_assoc (a b c : string) : (a ++ b) ++ c = a ++ b ++ c.
Proof. induction a as [|x r IH]; simpl; [reflexivity | rewrite IH; reflexivity]. Qed.

(** The lines of a reply made of an opening line and the text after it. *)
Lemma split_first_line (first rest : string) :
  lacks nl first = true ->
  split nl (first ++ NL ++ rest) = first :: split nl rest.
Proof.
  intros H. unfold NL. cbn [append].
  rewrite split_app, (split_lacks _ _ H). reflexivity.
Qed.

(** C1, amended.  A reply that opens with a fence line (a language tag
    may follow the three backticks) has its fenced content extracted up to
    the first later line that starts with three backticks: when no line of
    [body] starts with a fence, the step returns [body] exactly, whatever
    follows the closing fence, and it returns the empty text when the
    closing fence is the second line. *)
Theorem strip_fence_first_block (tag rest : string) :
  lacks nl tag = true ->
  (forall body,
      fence_free body = true ->
      strip_fence (fence ++ tag ++ NL ++ body ++ NL ++ fence ++ rest) = body) /\
  strip_fence (fence ++ tag ++ NL ++ fence ++ rest) = EmptyString.
Proof.
  intros Htag.
  assert (Hopen : lacks nl (fence ++ tag) = true)
    by (rewrite lacks_app, Htag; reflexivity).
  destruct (split_head nl fence rest eq_refl) as (h & t & Hclose).
  split.
  - intros body Hbody.
    unfold strip_fence. rewrite startswith_app.
    pose proof (split_first_line (fence ++ tag)
                  (body ++ NL ++ fence ++ rest) Hopen) as E.
    rewrite append_assoc in E. rewrite E. clear E.
    unfold NL at 1. cbn [append]. rewrite split_app, Hclose.
    rewrite fence_loop_open by apply startswith_app.
    rewrite fence_loop_collect by exact Hbody.
    rewrite fence_loop_close by apply startswith_app.
    apply join_split.
  - unfold strip_fence. rewrite startswith_app.
    pose proof (split_first_line (fence ++ tag) (fence ++ rest) Hopen) as E.
    rewrite append_assoc in E. rewrite E, Hclose. clear E.
    rewrite fence_loop_open by apply startswith_app.
    rewrite fence_loop_close by apply startswith_app.
    reflexivity.
Qed.

Lemma strip_fence_first_block_witness :
  strip_fence ("```json" ++ NL ++ "{}" ++ NL ++ "```" ++ NL ++ "done") = "{}".
Proof.
  exact (proj1 (strip_fence_first_block "json" (NL ++ "done") eq_refl)
           "{}" eq_refl).
Defined.

(** C1 as stated fails: with a fence line inside, the step stops at that
    line and not at the last fence marker of the reply. *)
Lemma strip_fence_last_fence_counterexample :
  ~ (forall tag body : string,
       lacks nl tag = true ->
       strip_fence (fence ++ tag ++ NL ++ body ++ NL ++ fence) = body).
Proof.
  intros H.
  specialize (H EmptyString ("a" ++ NL ++ "```" ++ NL ++ "b") eq_refl).
  vm_compute in H. discriminate H.
Qed.

(** C7.  Stripping the fences of a stripped reply changes nothing. *)
Theorem strip_fence_idempotent (response_text : string) :
  strip_fence (strip_fence response_text) = strip_fence response_text.
Proof.
  destruct (startswith response_text fence) eqn:H.
  - pose proof (strip_fence_plain _ H) as P.
    unfold strip_fence at 1. rewrite P. reflexivity.
  - unfold strip_fence. rewrite H, H. reflexivity.
Qed.

(** C10.  A reply that opens with a fence line and has no later line
    starting with a fence is stripped to the lines after the opening one,
    joined by the line breaks that separated them: the text after the
    first line break (the empty text when there is none).  The step is a
    total function, so it raises nothing. *)
Theorem strip_fence_unclosed (reply : string) :
  startswith reply fence = true ->
  forallb (fun line => negb (startswith line fence)) (tl (split nl reply)) = true ->
  strip_fence reply = join NL (tl (split nl reply)) /\
  (forall first rest,
      reply = first ++ NL ++ rest -> lacks nl first = true ->
      strip_fence reply = rest) /\
  (lacks nl reply = true -> strip_fence reply = EmptyString).
Proof.
  intros Hopen Hrest.
  assert (E : strip_fence reply = join NL (tl (split nl reply))).
  { unfold strip_fence. rewrite Hopen.
    destruct (first_line_fence _ Hopen) as (first & rest & Hs & Hf).
    rewrite Hs in *. cbn [tl] in *.
    rewrite fence_loop_open by exact Hf.
    rewrite <- (app_nil_r rest) at 1.
    rewrite fence_loop_collect by exact Hrest. reflexivity. }
  split; [exact E|]. split.
  - intros first rest Hreply Hfirst. rewrite E, Hreply.
    rewrite (split_first_line _ _ Hfirst). cbn [tl]. apply join_split.
  - intros Hone. rewrite E, (split_lacks _ _ Hone). reflexivity.
Qed.

Lemma strip_fence_unclosed_witness :
  strip_fence ("```json" ++ NL ++ "{" ++ NL ++ "}") = "{" ++ NL ++ "}".
Proof.
  exact (proj1 (proj2 (strip_fence_unclosed
                         ("```json" ++ NL ++ "{" ++ NL ++ "}") eq_refl eq_refl))
           "```json" ("{" ++ NL ++ "}") eq_refl eq_refl).
Defined.

End FenceStripping.

(* ===================================================================== *)
(** ** Media types                                                       *)
(* ===================================================================== *)

Section Suffix.
Import PyStr PosixPath.

Lemma rfind_lacks (c : ascii) (s : string) : lacks c s = true -> rfind c s = None.
Proof.
  induction s as [|a r IH]; cbn [lacks rfind]; intros H; [reflexivity|].
  apply andb_true_iff in H. destruct H as [Ha Hr].
  apply negb_true_iff in Ha. rewrite (IH Hr), Ha. reflexivity.
Qed.

(** The last [c] of [stem ++ c ++ ext] is the one written, when [ext] has
    none. *)
Lemma rfind_last (c : ascii) (stem ext : string) :
  lacks c ext = true ->
  rfind c (stem ++ String c ext) = Some (String.length stem).
Proof.
  intros H. induction stem as [|a r IH]; cbn [append rfind String.length].
  - rewrite (rfind_lacks _ _ H), Ascii.eqb_refl. reflexivity.
  - rewrite IH. reflexivity.
Qed.

Lemma drop_app (a b : string) : drop (String.length a) (a ++ b) = b.
Proof. induction a as [|x r IH]; [destruct b; reflexivity | exact IH]. Qed.

Lemma length_app (a b : string) :
  String.length (a ++ b) = (String.length a + String.length b)%nat.
Proof. induction a as [|x r IH]; cbn; [reflexivity | rewrite IH; reflexivity]. Qed.

(** A file name [stem.ext] is a part [pathlib] keeps. *)
Lemma kept_file_name (stem ext : string) :
  stem <> EmptyString -> kept (stem ++ String "." ext) = true.
Proof.
  intros H. destruct stem as [|a r]; [contradiction H; reflexivity|].
  unfold kept. cbn [append String.eqb].
  destruct r; cbn [append String.eqb]; rewrite ?andb_false_r;
    destruct (Ascii.eqb a "."); reflexivity.
Qed.

Lemma suffix_of_name (n stem ext : string) :
  name n = stem ++ String "." ext ->
  stem <> EmptyString -> ext <> EmptyString -> lacks "." ext = true ->
  suffix n = String "." ext.
Proof.
  intros Hname Hstem Hext Hdot. unfold suffix. rewrite Hname.
  rewrite (rfind_last _ _ _ Hdot), length_app. cbn [String.length].
  assert (L1 : (0 < String.length stem)%nat)
    by (destruct stem; [contradiction Hstem; reflexivity | cbn; lia]).
  assert (L2 : (0 < String.length ext)%nat)
    by (destruct ext; [contradiction Hext; reflexivity | cbn; lia]).
  replace (0 <? String.length stem)%nat with true
    by (symmetry; apply Nat.ltb_lt; exact L1).
  replace (String.length stem <? String.length stem + S (String.length ext) - 1)%nat
    with true by (symmetry; apply Nat.ltb_lt; lia).
  cbn [andb]. apply drop_app.
Qed.

(** The suffix of the path of a file [stem.ext], in a directory or alone,
    is [.ext]. *)
Lemma suffix_of_file (dir stem ext : string) :
  stem <> EmptyString -> ext <> EmptyString ->
  lacks "/" stem = true -> lacks "/" ext = true -> lacks "." ext = true ->
  suffix (dir ++ "/" ++ stem ++ "." ++ ext) = "." ++ ext /\
  suffix (stem ++ "." ++ ext) = "." ++ ext.
Proof.
  intros Hstem Hext Hs1 Hs2 Hdot. cbn [append].
  assert (Hline : lacks "/" (stem ++ String "." ext) = true).
  { clear Hstem. induction stem as [|a r IH]; cbn [append lacks].
    - rewrite Hs2. reflexivity.
    - cbn [lacks] in Hs1. apply andb_true_iff in Hs1.
      destruct Hs1 as [Ha Hr]. rewrite Ha, (IH Hr). reflexivity. }
  split; apply suffix_of_name with (stem := stem); auto; unfold name, parts.
  - rewrite split_app, (split_lacks _ _ Hline), filter_app.
    cbn [filter]. rewrite (kept_file_name _ _ Hstem). apply last_last.
  - rewrite (split_lacks _ _ Hline). cbn [filter].
    rewrite (kept_file_name _ _ Hstem). reflexivity.
Qed.

(** The media type of such a file is the one the table has for its
    lower-cased extension. *)
Lemma get_media_type_of_file (dir stem ext : string) :
  stem <> EmptyString -> ext <> EmptyString ->
  lacks "/" stem = true -> lacks "/" ext = true -> lacks "." ext = true ->
  get_media_type (dir ++ "/" ++ stem ++ "." ++ ext)
  = table_get media_types ("." ++ lower ext) "image/png".
Proof.
  intros Hstem Hext Hs1 Hs2 Hdot. unfold get_media_type.
  rewrite (proj1 (suffix_of_file dir stem ext Hstem Hext Hs1 Hs2 Hdot)).
  reflexivity.
Qed.

End Suffix.

(** C5.  The media type follows the extension of the path, that is the
    lower-cased suffix [pathlib] finds: [.jpg] and [.jpeg] give
    [image/jpeg], [.gif] gives [image/gif], [.webp] gives [image/webp],
    [.png] and every other extension (none included) give [image/png]. *)
Theorem get_media_type_by_extension (image_path : string) :
  let ext := PyStr.lower (PosixPath.suffix image_path) in
  (ext = ".jpg" \/ ext = ".jpeg" -> get_media_type image_path = "image/jpeg") /\
  (ext = ".gif" -> get_media_type image_path = "image/gif") /\
  (ext = ".webp" -> get_media_type image_path = "image/webp") /\
  (ext = ".png" -> get_media_type image_path = "image/png") /\
  (ext <> ".png" -> ext <> ".jpg" -> ext <> ".jpeg" -> ext <> ".gif" ->
   ext <> ".webp" -> get_media_type image_path = "image/png").
Proof.
  intros ext. unfold get_media_type. fold ext.
  repeat split.
  - intros [E | E]; rewrite E; reflexivity.
  - intros E; rewrite E; reflexivity.
  - intros E; rewrite E; reflexivity.
  - intros E; rewrite E; reflexivity.
  - intros N1 N2 N3 N4 N5.
    apply not_eq_sym in N1, N2, N3, N4, N5.
    apply String.eqb_neq in N1, N2, N3, N4, N5.
    unfold media_types. cbn [table_get].
    rewrite N1, N2, N3, N4, N5. reflexivity.
Qed.

Lemma get_media_type_by_extension_witness :
  get_media_type "/tmp/Screen Shot.JPEG" = "image/jpeg" /\
  get_media_type "shots/menu.gif" = "image/gif" /\
  get_media_type "menu.webp" = "image/webp" /\
  get_media_type "/tmp/shot.png" = "image/png" /\
  get_media_type "/tmp/shot.bmp" = "image/png".
Proof.
  split; [|split; [|split; [|split]]].
  - apply (proj1 (get_media_type_by_extension "/tmp/Screen Shot.JPEG")).
    right. reflexivity.
  - apply (proj1 (proj2 (get_media_type_by_extension "shots/menu.gif"))).
    reflexivity.
  - apply (proj1 (proj2 (proj2 (get_media_type_by_extension "menu.webp")))).
    reflexivity.
  - apply (proj1 (proj2 (proj2 (proj2
             (get_media_type_by_extension "/tmp/shot.png"))))).
    reflexivity.
  - apply (proj2 (proj2 (proj2 (proj2
             (get_media_type_by_extension "/tmp/shot.bmp")))));
      vm_compute; discriminate.
Defined.

(* ===================================================================== *)
(** ** Runs                                                              *)
(* ===================================================================== *)

Section Runs.

Context {pyfloat : Type}.
Variable floatstr : pyfloat -> string.
Variable float_bool : pyfloat -> bool.
Variable json_loads : string -> exn + value pyfloat.
Variable py_str : value pyfloat -> string.

Local Open Scope run_scope.

Lemma stdout_app (t t' : list event) :
  stdout (t ++ t')%list = (stdout t ++ stdout t')%list.
Proof.
  induction t as [|ev r IH]; [reflexivity|].
  destruct ev; cbn [app stdout]; rewrite IH; reflexivity.
Qed.

Lemma ensure_element_silent (result : value pyfloat) (element : string) :
  fst (ensure_element result element) = [].
Proof.
  destruct result; try reflexivity; unfold ensure_element; cbn.
  - destruct (negb (PyStr.contains s "element")); reflexivity.
  - destruct (negb (existsb (is_str "element") items)); reflexivity.
  - destruct (negb (dict_contains items "element")); reflexivity.
Qed.

Lemma bind_ok {A B} (t : list event) (a : A) (k : A -> run B) :
  bind (t, inr a) k = ((t ++ fst (k a))%list, snd (k a)).
Proof. unfold bind. destruct (k a); reflexivity. Qed.

Lemma bind_raise {A B} (t : list event) (e : exn) (k : A -> run B) :
  bind (t, inl e) k = (t, inl e).
Proof. reflexivity. Qed.

Lemma get_image_dimensions_eq (w : World) (path : string) :
  get_image_dimensions w path = ([OpenImage path], image_size w path).
Proof.
  unfold get_image_dimensions, emit, lift. rewrite bind_ok. reflexivity.
Qed.

Lemma encode_image_ok (w : World) (path : string) (data : list Byte.byte) :
  file_read w path = inr data ->
  encode_image w path = ([ReadFile path], inr (Base64.standard_b64encode data)).
Proof.
  intros H. unfold encode_image, emit, lift. rewrite bind_ok, H, bind_ok.
  reflexivity.
Qed.

Lemma create_message_eq (w : World) (req : request) :
  create_message w req = ([CreateMessage req], messages_create w req).
Proof.
  unfold create_message, emit, lift. rewrite bind_ok. reflexivity.
Qed.

Lemma first_text_ok (raw : string) (more : list content_block) :
  first_text (TextBlock raw :: more) = ([], inr raw).
Proof. reflexivity. Qed.

(** With the image loaded and the reply [raw] received, [find_element]
    prints nothing and ends as the decoding of [raw] does. *)
Lemma find_element_reply (w : World) (path element raw : string) :
  find_reply w path element raw ->
  exists t,
    stdout t = [] /\
    find_element json_loads w path element = (t, decoded json_loads raw element).
Proof.
  intros (width & height & data & more & Hsize & Hread & Hmsg).
  unfold find_element.
  rewrite get_image_dimensions_eq, Hsize, bind_ok.
  rewrite (encode_image_ok _ _ _ Hread), bind_ok.
  cbn [fst snd]. rewrite create_message_eq, Hmsg, bind_ok.
  rewrite first_text_ok, bind_ok.
  unfold decoded, lift.
  destruct (json_loads (strip_fence (PyStr.strip raw))) as [e | result].
  - rewrite bind_raise. cbn [fst snd]. eexists. split; [|reflexivity].
    reflexivity.
  - rewrite bind_ok. cbn [fst snd]. rewrite ensure_element_silent.
    eexists. split; [|reflexivity]. reflexivity.
Qed.

(** The same for [describe_screen], whose result is the trimmed reply. *)
Lemma describe_screen_reply (w : World) (path raw : string) :
  describe_reply w path raw ->
  exists t,
    stdout t = [] /\
    describe_screen w path = (t, inr (PyStr.strip raw)).
Proof.
  intros (data & more & Hread & Hmsg).
  unfold describe_screen.
  rewrite (encode_image_ok _ _ _ Hread), bind_ok.
  rewrite create_message_eq, Hmsg, bind_ok.
  rewrite first_text_ok, bind_ok.
  cbn [fst snd ret]. eexists. split; [|reflexivity]. reflexivity.
Qed.

(** *** The dict of a result *)

Lemma dict_lookup_setitem_same (d : list (string * value pyfloat))
      (key : string) (v : value pyfloat) :
  dict_lookup (dict_setitem d key v) key = Some v.
Proof.
  induction d as [|[k x] rest IH]; cbn [dict_setitem dict_lookup].
  - rewrite String.eqb_refl. reflexivity.
  - destruct (String.eqb k key) eqn:E; cbn [dict_lookup]; rewrite E;
      [reflexivity | exact IH].
Qed.

Lemma dict_lookup_setitem_other (d : list (string * value pyfloat))
      (key other : string) (v : value pyfloat) :
  other <> key ->
  dict_lookup (dict_setitem d key v) other = dict_lookup d other.
Proof.
  intros N. induction d as [|[k x] rest IH]; cbn [dict_setitem dict_lookup].
  - apply not_eq_sym in N. apply String.eqb_neq in N. rewrite N. reflexivity.
  - destruct (String.eqb k key) eqn:E; cbn [dict_lookup].
    + apply String.eqb_eq in E. subst k.
      apply not_eq_sym in N. apply String.eqb_neq in N. rewrite N. reflexivity.
    + destruct (String.eqb k other); [reflexivity | exact IH].
Qed.

Lemma dict_setitem_absent (d : list (string * value pyfloat))
      (key : string) (v : value pyfloat) :
  dict_contains d key = false ->
  dict_setitem d key v = (d ++ [(key, v)])%list.
Proof.
  unfold dict_contains.
  induction d as [|[k x] rest IH]; cbn [dict_setitem dict_lookup app];
    [reflexivity|].
  destruct (String.eqb k key); [discriminate|].
  intros H. rewrite (IH H). reflexivity.
Qed.

Lemma decoded_object (raw element : string) (o : list (string * value pyfloat)) :
  json_loads (strip_fence (PyStr.strip raw)) = inr (VDict o) ->
  decoded json_loads raw element = inr (VDict (with_element o element)).
Proof.
  intros H. unfold decoded, with_element. rewrite H.
  unfold ensure_element, contains_key, ret. rewrite bind_ok. cbn [fst snd].
  destruct (dict_contains o "element"); reflexivity.
Qed.

Lemma with_element_other (o : list (string * value pyfloat))
      (element key : string) :
  key <> "element" ->
  dict_lookup (with_element o element) key = dict_lookup o key.
Proof.
  intros N. unfold with_element.
  destruct (dict_contains o "element"); [reflexivity|].
  apply dict_lookup_setitem_other. exact N.
Qed.

(** *** find_element on a reply that decodes to an object *)

Lemma find_element_object (w : World) (path element raw : string)
      (o : list (string * value pyfloat)) :
  find_reply w path element raw ->
  json_loads (strip_fence (PyStr.strip raw)) = inr (VDict o) ->
  snd (find_element json_loads w path element)
  = inr (VDict (with_element o element)).
Proof.
  intros Hreply Hjson.
  destruct (find_element_reply w path element raw Hreply) as (t & _ & E).
  rewrite E. cbn [snd]. apply decoded_object. exact Hjson.
Qed.

(** C2.  When the image loads and the reply, its fences stripped, decodes
    to a JSON object, [find_element] returns an object whose [element] is
    the description asked for if the reply had no [element], and the
    reply's own [element] otherwise. *)
Theorem find_element_element_field (w : World) (path element raw : string)
        (o : list (string * value pyfloat)) :
  find_reply w path element raw ->
  json_loads (strip_fence (PyStr.strip raw)) = inr (VDict o) ->
  exists result,
    snd (find_element json_loads w path element) = inr (VDict result) /\
    (dict_lookup o "element" = None ->
     dict_lookup result "element" = Some (VStr element)) /\
    (forall v, dict_lookup o "element" = Some v ->
               dict_lookup result "element" = Some v).
Proof.
  intros Hreply Hjson. exists (with_element o element).
  split; [exact (find_element_object _ _ _ _ _ Hreply Hjson)|].
  unfold with_element, dict_contains. split.
  - intros Habsent. rewrite Habsent. apply dict_lookup_setitem_same.
  - intros v Hpresent. rewrite Hpresent. exact Hpresent.
Qed.

(** C9.  On a reply that decodes to a JSON object, [find_element] returns
    that object with at most an [element] entry added: every key of the
    reply keeps its value, every key but [element] is as the reply has it
    (so [x], [y] and [confidence] are present only if the reply gave
    them), an object that has [element] is returned as it is, and one
    that has none gets the entry appended. *)
Theorem find_element_frame (w : World) (path element raw : string)
        (o : list (string * value pyfloat)) :
  find_reply w path element raw ->
  json_loads (strip_fence (PyStr.strip raw)) = inr (VDict o) ->
  exists result,
    snd (find_element json_loads w path element) = inr (VDict result) /\
    (forall key v, dict_lookup o key = Some v -> dict_lookup result key = Some v) /\
    (forall key, key <> "element" -> dict_lookup result key = dict_lookup o key) /\
    (dict_lookup result "x" = dict_lookup o "x" /\
     dict_lookup result "y" = dict_lookup o "y" /\
     dict_lookup result "confidence" = dict_lookup o "confidence") /\
    (dict_contains o "element" = true -> result = o) /\
    (dict_contains o "element" = false ->
     result = (o ++ [("element", VStr element)])%list).
Proof.
  intros Hreply Hjson. exists (with_element o element).
  split; [exact (find_element_object _ _ _ _ _ Hreply Hjson)|].
  split; [|split; [|split; [|split]]].
  - intros key v Hkey. destruct (String.eqb key "element") eqn:E.
    + apply String.eqb_eq in E. subst key.
      unfold with_element, dict_contains. rewrite Hkey. exact Hkey.
    + apply String.eqb_neq in E. rewrite with_element_other by exact E.
      exact Hkey.
  - intros key N. apply with_element_other. exact N.
  - repeat split; apply with_element_other; discriminate.
  - intros H. unfold with_element. rewrite H. reflexivity.
  - intros H. unfold with_element. rewrite H.
    apply dict_setitem_absent. exact H.
Qed.

(** *** The printed lines *)

Lemma escape_char_one_line (c : ascii) :
  PyStr.lacks PyStr.nl (JsonText.escape_char c) = true.
Proof. destruct c as [[] [] [] [] [] [] [] []]; reflexivity. Qed.

(** A string written by [json.dumps] holds no line break. *)
Lemma encode_str_one_line (s : string) :
  PyStr.lacks PyStr.nl (JsonText.encode_str s) = true.
Proof.
  unfold JsonText.encode_str. rewrite !lacks_app.
  assert (E : PyStr.lacks PyStr.nl (JsonText.escape s) = true).
  { induction s as [|c r IH]; [reflexivity|].
    cbn [JsonText.escape]. rewrite lacks_app, escape_char_one_line, IH.
    reflexivity. }
  rewrite E. reflexivity.
Qed.

Lemma error_line_one_line (flag message : string) :
  PyStr.lacks PyStr.nl flag = true ->
  PyStr.lacks PyStr.nl (error_line flag message) = true.
Proof.
  intros H. unfold error_line.
  rewrite !lacks_app, H, encode_str_one_line. reflexivity.
Qed.

Lemma dumps_error_found (message : string) :
  json_dumps floatstr (error_object "found" message) = error_line "found" message.
Proof. reflexivity. Qed.

Lemma dumps_error_success (message : string) :
  json_dumps floatstr (error_object "success" message)
  = error_line "success" message.
Proof. reflexivity. Qed.

Lemma dumps_description (text : string) :
  json_dumps_indent floatstr 2
    (VDict [("success", VBool true); ("description", VStr text); ("error", VNone)])
  = description_lines text.
Proof.
  unfold json_dumps_indent, description_lines, JsonText.encode_str.
  cbn. rewrite !append_assoc. reflexivity.
Qed.

(** *** main *)

Local Abbreviation run_main := (main floatstr float_bool json_loads py_str).
Local Abbreviation run_try := (try_block floatstr float_bool json_loads py_str).

(** Past the two validations and the construction of the client, [main]
    ends as its [try] block and the handlers decide. *)
Lemma main_ready (w : World) (args : Args) :
  ready w args ->
  given (arg_find args) || arg_describe args = true ->
  run_main w args =
    match snd (run_try w args) with
    | inr _ => (NewClient :: fst (run_try w args), Exited 0)
    | inl e => ((NewClient :: fst (run_try w args)) ++ fst (handler floatstr e),
                snd (handler floatstr e))%list
    end.
Proof.
  intros [Hexists Hclient] Hmode. unfold main.
  rewrite Hexists, Hclient. cbn [negb].
  rewrite <- negb_orb, Hmode. cbn [negb].
  destruct (run_try w args) as [t [e | u]]; cbn [fst snd].
  - destruct (handler floatstr e). reflexivity.
  - reflexivity.
Qed.

(** C6.  When the image path does not exist, [main] does one thing: it
    prints the object [{"success": false, "error": "Image file not found:
    <path>"}] on one line, and exits with code 1.  No client is built, no
    file is read and no request is sent, whatever the mode flags are. *)
Theorem missing_image_report (w : World) (args : Args) :
  path_exists w (arg_image args) = false ->
  run_main w args
  = ([Print (error_line "success" ("Image file not found: " ++ arg_image args))],
     Exited 1).
Proof.
  intros H. unfold main. rewrite H. cbn [negb].
  rewrite dumps_error_success. reflexivity.
Qed.

Lemma try_block_find (w : World) (args : Args) (element : string) :
  arg_find args = Some element ->
  element <> EmptyString ->
  given (arg_find args) = true /\
  run_try w args = find_mode floatstr float_bool json_loads py_str w args element.
Proof.
  intros Hfind Hne. apply String.eqb_neq in Hne.
  unfold try_block. rewrite Hfind. cbn [given text_of]. rewrite Hne.
  split; reflexivity.
Qed.

(** C3.  In find mode, when the reply with its fences stripped is not
    valid JSON ([json.loads] raises [JSONDecodeError] with text [msg]),
    [find_element] raises that error and returns no result; [main] prints
    one line, the object [{"found": false, "error": "Failed to parse
    vision response as JSON: <msg>"}], and exits with code 1. *)
Theorem malformed_reply_fails (w : World) (args : Args)
        (element raw msg : string) :
  ready w args ->
  arg_find args = Some element ->
  element <> EmptyString ->
  find_reply w (arg_image args) element raw ->
  json_loads (strip_fence (PyStr.strip raw)) = inl (Exn JSONDecodeError msg) ->
  let report :=
    error_line "found" ("Failed to parse vision response as JSON: " ++ msg) in
  snd (find_element json_loads w (arg_image args) element)
    = inl (Exn JSONDecodeError msg) /\
  stdout (fst (run_main w args)) = [report] /\
  snd (run_main w args) = Exited 1 /\
  PyStr.lacks PyStr.nl report = true.
Proof.
  intros Hready Hfind Hne Hreply Hjson report.
  destruct (find_element_reply w _ _ _ Hreply) as (t & Hquiet & E).
  assert (D : decoded json_loads raw element = inl (Exn JSONDecodeError msg))
    by (unfold decoded; rewrite Hjson; reflexivity).
  rewrite D in E.
  destruct (try_block_find w args element Hfind Hne) as [Hgiven Htry].
  assert (T : run_try w args = (t, inl (Exn JSONDecodeError msg))).
  { rewrite Htry. unfold find_mode. rewrite E. apply bind_raise. }
  rewrite (main_ready w args Hready) by (rewrite Hgiven; reflexivity).
  rewrite T, E. cbn [fst snd].
  unfold handler. cbn [isinstance_APIError isinstance_JSONDecodeError exn_kind exn_str fst snd].
  rewrite dumps_error_found. fold report.
  repeat split.
  - rewrite stdout_app. cbn [stdout]. rewrite Hquiet. reflexivity.
  - apply error_line_one_line. reflexivity.
Qed.

(** C4, amended.  In find mode, when the reply decodes to an object whose
    [found] is false or absent, [main] ends with exit code 0: a not-found
    answer is a completed call.  Without [--json] it prints the line
    [Not found: <element>] and then the returned object on a line of
    JSON; with [--json] it prints the returned object alone, with
    [indent=2]. *)
Theorem find_not_found_report (w : World) (args : Args) (element raw : string)
        (o : list (string * value pyfloat)) :
  ready w args ->
  arg_find args = Some element ->
  element <> EmptyString ->
  find_reply w (arg_image args) element raw ->
  json_loads (strip_fence (PyStr.strip raw)) = inr (VDict o) ->
  dict_lookup o "found" = None \/ dict_lookup o "found" = Some (VBool false) ->
  exists result,
    snd (find_element json_loads w (arg_image args) element) = inr (VDict result) /\
    snd (run_main w args) = Exited 0 /\
    (arg_json args = false ->
     stdout (fst (run_main w args))
     = ["Not found: " ++ element; json_dumps floatstr (VDict result)]) /\
    (arg_json args = true ->
     stdout (fst (run_main w args))
     = [json_dumps_indent floatstr 2 (VDict result)]).
Proof.
  intros Hready Hfind Hne Hreply Hjson Hfound.
  exists (with_element o element).
  destruct (find_element_reply w _ _ _ Hreply) as (t & Hquiet & E).
  rewrite (decoded_object _ _ _ Hjson) in E.
  destruct (try_block_find w args element Hfind Hne) as [Hgiven Htry].
  assert (F : dict_get (with_element o element) "found" (VBool false)
              = VBool false).
  { unfold dict_get. rewrite with_element_other by discriminate.
    destruct Hfound as [H | H]; rewrite H; reflexivity. }
  assert (T : run_try w args
              = ((t ++ if arg_json args
                       then [Print (json_dumps_indent floatstr 2
                                      (VDict (with_element o element)))]
                       else [Print ("Not found: " ++ element);
                             Print (json_dumps floatstr
                                      (VDict (with_element o element)))])%list,
                 inr tt)).
  { rewrite Htry. unfold find_mode. rewrite E, bind_ok.
    destruct (arg_json args); [reflexivity|].
    unfold get, ret. rewrite bind_ok. cbn [fst snd]. rewrite F.
    cbn [truthy]. unfold print, emit. rewrite bind_ok. reflexivity. }
  rewrite (main_ready w args Hready) by (rewrite Hgiven; reflexivity).
  rewrite T, E. cbn [fst snd stdout]. rewrite stdout_app, Hquiet.
  split; [reflexivity|]. split; [reflexivity|].
  split; intros Hmode; rewrite Hmode; reflexivity.
Qed.

(** C8.  In describe mode with [--json], when the service answers, [main]
    prints the object [{"success": true, "description": <text>, "error":
    null}], [<text>] being the trimmed reply, with [indent=2], and ends
    with exit code 0. *)
Theorem describe_json_report (w : World) (args : Args) (raw : string) :
  ready w args ->
  given (arg_find args) = false ->
  arg_describe args = true ->
  arg_json args = true ->
  describe_reply w (arg_image args) raw ->
  stdout (fst (run_main w args))
    = [json_dumps_indent floatstr 2
         (VDict [("success", VBool true);
                 ("description", VStr (PyStr.strip raw));
                 ("error", VNone)])] /\
  stdout (fst (run_main w args)) = [description_lines (PyStr.strip raw)] /\
  snd (run_main w args) = Exited 0.
Proof.
  intros Hready Hfind Hdescribe Hjson Hreply.
  destruct (describe_screen_reply w _ _ Hreply) as (t & Hquiet & E).
  assert (T : run_try w args
              = ((t ++ [Print (description_lines (PyStr.strip raw))])%list, inr tt)).
  { unfold try_block. rewrite Hfind, Hdescribe. unfold describe_mode.
    rewrite E, bind_ok, Hjson, dumps_description. reflexivity. }
  rewrite (main_ready w args Hready)
    by (rewrite Hdescribe; apply orb_true_r).
  rewrite T. cbn [fst snd stdout]. rewrite stdout_app, Hquiet, dumps_description.
  repeat split.
Qed.

End Runs.

(* ===================================================================== *)
(** ** The properties at work in the sample world                        *)
(* ===================================================================== *)

Section Instances.
Import Sample.

Lemma sample_ready (answer : string) (args : Args) :
  arg_image args = "/tmp/shot.png" -> ready (world answer) args.
Proof. intros H. unfold ready. rewrite H. split; reflexivity. Qed.

Lemma sample_find_reply (answer element : string) :
  find_reply (world answer) "/tmp/shot.png" element answer.
Proof.
  exists 4%Z, 3%Z, [Byte.x4d; Byte.x61], [].
  split; [reflexivity | split; reflexivity].
Qed.

Lemma sample_describe_reply (answer : string) :
  describe_reply (world answer) "/tmp/shot.png" answer.
Proof. exists [Byte.x4d; Byte.x61], []. split; reflexivity. Qed.

Lemma find_element_element_field_witness :
  exists result,
    snd (find_element json_loads (world reply_missing) "/tmp/shot.png" "Save")
      = inr (VDict result) /\
    dict_lookup result "element" = Some (VStr "Save").
Proof.
  destruct (find_element_element_field json_loads (world reply_missing)
              "/tmp/shot.png" "Save" reply_missing [("found", VBool false)]
              (sample_find_reply reply_missing "Save") eq_refl)
    as (result & Hres & Habsent & _).
  exists result. split; [exact Hres | exact (Habsent eq_refl)].
Defined.

Lemma find_element_frame_witness :
  exists result,
    snd (find_element json_loads (world reply_echo) "/tmp/shot.png" "Save")
      = inr (VDict result) /\
    result = [("element", VStr "OK")].
Proof.
  destruct (find_element_frame json_loads (world reply_echo)
              "/tmp/shot.png" "Save" reply_echo [("element", VStr "OK")]
              (sample_find_reply reply_echo "Save") eq_refl)
    as (result & Hres & _ & _ & _ & Hsame & _).
  exists result. split; [exact Hres | exact (Hsame eq_refl)].
Defined.

Lemma malformed_reply_fails_witness :
  stdout (fst (run_main "oops" (args_find "Save" false)))
    = [error_line "found"
         ("Failed to parse vision response as JSON: "
            ++ "Expecting value: line 1 column 1 (char 0)")] /\
  snd (run_main "oops" (args_find "Save" false)) = Exited 1.
Proof.
  destruct (malformed_reply_fails floatstr float_bool json_loads py_str
              (world "oops") (args_find "Save" false) "Save" "oops"
              "Expecting value: line 1 column 1 (char 0)"
              (sample_ready "oops" (args_find "Save" false) eq_refl) eq_refl
              ltac:(discriminate) (sample_find_reply "oops" "Save") eq_refl)
    as (_ & Hout & Hexit & _).
  split; [exact Hout | exact Hexit].
Defined.

Lemma find_not_found_report_witness :
  exists result,
    snd (find_element json_loads (world reply_missing) "/tmp/shot.png" "Save")
      = inr (VDict result) /\
    snd (run_main reply_missing (args_find "Save" false)) = Exited 0 /\
    stdout (fst (run_main reply_missing (args_find "Save" false)))
      = ["Not found: Save"; json_dumps floatstr (VDict result)].
Proof.
  destruct (find_not_found_report floatstr float_bool json_loads py_str
              (world reply_missing) (args_find "Save" false) "Save" reply_missing
              [("found", VBool false)]
              (sample_ready reply_missing (args_find "Save" false) eq_refl)
              eq_refl ltac:(discriminate)
              (sample_find_reply reply_missing "Save") eq_refl
              (or_intror eq_refl))
    as (result & Hres & Hexit & Htext & _).
  exists result. split; [exact Hres|]. split; [exact Hexit|].
  exact (Htext eq_refl).
Defined.

(** C4 as stated fails: with [--json] a find run prints the result with
    [indent=2] and no [Not found:] line, whatever [found] is. *)
Lemma find_not_found_json_counterexample :
  ~ (forall (pyfloat : Type) (floatstr : pyfloat -> string)
            (float_bool : pyfloat -> bool)
            (json_loads : string -> exn + value pyfloat)
            (py_str : value pyfloat -> string)
            (w : World) (args : Args) (element raw : string)
            (o : list (string * value pyfloat)),
        ready w args ->
        arg_find args = Some element ->
        element <> EmptyString ->
        find_reply w (arg_image args) element raw ->
        json_loads (strip_fence (PyStr.strip raw)) = inr (VDict o) ->
        dict_lookup o "found" = None \/ dict_lookup o "found" = Some (VBool false) ->
        exists result,
          stdout (fst (main floatstr float_bool json_loads py_str w args))
          = ["Not found: " ++ element; json_dumps floatstr (VDict result)]).
Proof.
  intros H.
  destruct (H pyfloat floatstr float_bool json_loads py_str
              (world reply_missing) (args_find "Save" true) "Save" reply_missing
              [("found", VBool false)]
              (sample_ready reply_missing (args_find "Save" true) eq_refl)
              eq_refl ltac:(discriminate)
              (sample_find_reply reply_missing "Save") eq_refl
              (or_intror eq_refl)) as [result E].
  vm_compute in E. discriminate E.
Qed.

Lemma missing_image_report_witness :
  main floatstr float_bool json_loads py_str (world "unused")
       {| arg_image := "/nonexistent.png"; arg_find := Some "x";
          arg_describe := false; arg_json := false |}
  = ([Print ("{" ++ JsonText.dq ++ "success" ++ JsonText.dq ++ ": false, "
                 ++ JsonText.dq ++ "error" ++ JsonText.dq ++ ": "
                 ++ JsonText.dq ++ "Image file not found: /nonexistent.png"
                 ++ JsonText.dq ++ "}")],
     Exited 1).
Proof.
  exact (missing_image_report floatstr float_bool json_loads py_str
           (world "unused")
           {| arg_image := "/nonexistent.png"; arg_find := Some "x";
              arg_describe := false; arg_json := false |} eq_refl).
Defined.

Lemma describe_json_report_witness :
  stdout (fst (run_main ("  A terminal and a browser. " ++ NL) (args_describe true)))
    = [description_lines "A terminal and a browser."] /\
  snd (run_main ("  A terminal and a browser. " ++ NL) (args_describe true))
    = Exited 0.
Proof.
  destruct (describe_json_report floatstr float_bool json_loads py_str
              (world ("  A terminal and a browser. " ++ NL)) (args_describe true)
              ("  A terminal and a browser. " ++ NL)
              (sample_ready ("  A terminal and a browser. " ++ NL)
                 (args_describe true) eq_refl)
              eq_refl eq_refl eq_refl
              (sample_describe_reply ("  A terminal and a browser. " ++ NL)))
    as (_ & Hout & Hexit).
  split; [exact Hout | exact Hexit].
Defined.

(** *** Further runs *)

(** A reply without fences goes to the decoder as it is. *)
Example strip_fence_no_fence : strip_fence reply_found = reply_found.
Proof. reflexivity. Qed.

Example strip_fence_tagged :
  strip_fence ("```json" ++ NL ++ reply_found ++ NL ++ "```") = reply_found.
Proof. reflexivity. Qed.

(** Line 104 trims the reply before the fences are stripped.  Trimming is
    not part of the fence-stripping step: with it, a second pass can find
    a fence that the first pass had left behind indented. *)
Remark strip_then_strip_fence_twice :
  let pass := fun text => strip_fence (PyStr.strip text) in
  let reply := "```" ++ NL ++ "  ```x" ++ NL ++ "```" in
  pass reply = "  ```x" /\ pass (pass reply) = EmptyString.
Proof. split; reflexivity. Qed.

Example found_run :
  stdout (fst (run_main ("```json" ++ NL ++ reply_found ++ NL ++ "```")
                        (args_find "Save" false)))
  = ["Found: Save";
     "Coordinates: (10, ?)";
     "Confidence: unknown";
     "{" ++ JsonText.dq ++ "found" ++ JsonText.dq ++ ": true, "
         ++ JsonText.dq ++ "x" ++ JsonText.dq ++ ": 10, "
         ++ JsonText.dq ++ "element" ++ JsonText.dq ++ ": "
         ++ JsonText.dq ++ "Save" ++ JsonText.dq ++ "}"].
Proof. reflexivity. Qed.

Example describe_text_run :
  run_main ("A terminal. " ++ NL) (args_describe false)
  = ([NewClient;
      ReadFile "/tmp/shot.png";
      CreateMessage (vision_request "image/png" "TWE=" describe_prompt);
      Print "A terminal."],
     Exited 0).
Proof. reflexivity. Qed.

Example usage_error_run :
  run_main "unused" {| arg_image := "/tmp/shot.png"; arg_find := None;
                       arg_describe := false; arg_json := false |}
  = ([Print (error_line "success" "Specify --find 'element' or --describe")],
     Exited 1).
Proof. reflexivity. Qed.

(** A failing request is reported by the first handler. *)
Example api_error_run :
  let w := {| path_exists := fun _ => true;
              image_size := fun _ => inr (4, 3)%Z;
              file_read := fun _ => inr [];
              new_client := None;
              messages_create := fun _ => inl (Exn APIError "Connection error.") |} in
  let r := main floatstr float_bool json_loads py_str w (args_find "Save" true) in
  stdout (fst r) = [error_line "found" "Anthropic API error: Connection error."]
  /\ snd r = Exited 1.
Proof. split; reflexivity. Qed.

(** A reply that decodes to a list has no [element] to set. *)
Example list_reply_run :
  let loads := fun _ : string => inr (VList [VInt 1] : value pyfloat) in
  let r := main floatstr float_bool loads py_str (world "[1]") (args_find "Save" true) in
  stdout (fst r)
  = [error_line "found"
       "Unexpected error: list indices must be integers or slices, not str"]
  /\ snd r = Exited 1.
Proof. split; reflexivity. Qed.

End Instances.

(* ===================================================================== *)
(** ** What fence stripping keeps                                        *)
(* ===================================================================== *)

Section FenceContent.
Import PyStr.

Local Abbreviation plain := (fun line : string => negb (startswith line fence)).

Lemma append_nil_r (s : string) : s ++ EmptyString = s.
Proof. induction s as [|c r IH]; cbn; [reflexivity | rewrite IH; reflexivity]. Qed.

Lemma join_app (l1 l2 : list string) :
  l1 <> [] -> l2 <> [] ->
  join NL (l1 ++ l2)%list = join NL l1 ++ NL ++ join NL l2.
Proof.
  intros H1 H2. induction l1 as [|x t IH]; [contradiction H1; reflexivity|].
  destruct t as [|y t'].
  - destruct l2 as [|z l2']; [contradiction H2; reflexivity|]. reflexivity.
  - change (join NL ((x :: y :: t') ++ l2)%list)
      with (x ++ NL ++ join NL ((y :: t') ++ l2)%list).
    rewrite IH by discriminate.
    change (join NL (x :: y :: t')) with (x ++ NL ++ join NL (y :: t')).
    rewrite !append_assoc. reflexivity.
Qed.

(** The text of a run of consecutive lines is a part of the whole text. *)
Lemma join_segment (pre mid post : list string) :
  exists a b, join NL (pre ++ mid ++ post)%list = a ++ join NL mid ++ b.
Proof.
  destruct mid as [|m mid'].
  - exists (join NL (pre ++ post)%list), EmptyString.
    cbn [app]. unfold join at 2. cbn [concat]. cbn [append].
    rewrite append_nil_r. reflexivity.
  - destruct pre as [|p pre']; destruct post as [|q post'].
    + exists EmptyString, EmptyString. cbn [app]. rewrite app_nil_r.
      rewrite append_nil_r. reflexivity.
    + exists EmptyString, (NL ++ join NL (q :: post')).
      cbn [app append]. change (m :: (mid' ++ q :: post'))%list
        with ((m :: mid') ++ (q :: post'))%list.
      apply join_app; discriminate.
    + exists (join NL (p :: pre') ++ NL), EmptyString.
      rewrite app_nil_r, append_nil_r, append_assoc.
      apply join_app; discriminate.
    + exists (join NL (p :: pre') ++ NL), (NL ++ join NL (q :: post')).
      rewrite join_app by discriminate.
      rewrite (join_app (m :: mid') (q :: post')) by discriminate.
      rewrite !append_assoc. reflexivity.
Qed.

(** Inside, the loop returns what it had plus a first run of the lines. *)
Lemma fence_loop_inside_segment (lines acc : list string) :
  exists mid post,
    lines = (mid ++ post)%list /\ fence_loop lines true acc = (acc ++ mid)%list.
Proof.
  revert acc. induction lines as [|x t IH]; intros acc.
  - exists [], []. split; [reflexivity|].
    cbn [fence_loop]. rewrite app_nil_r. reflexivity.
  - cbn [fence_loop]. destruct (startswith x fence); cbn [andb negb].
    + exists [], (x :: t). split; [reflexivity|].
      rewrite app_nil_r. reflexivity.
    + destruct (IH (acc ++ [x])%list) as (mid & post & E & R).
      exists (x :: mid), post. rewrite R, <- app_assoc.
      split; [rewrite E; reflexivity | reflexivity].
Qed.

(** From outside, it returns what it had plus a run of consecutive lines. *)
Lemma fence_loop_segment (lines acc : list string) :
  exists pre mid post,
    lines = (pre ++ mid ++ post)%list /\
    fence_loop lines false acc = (acc ++ mid)%list.
Proof.
  induction lines as [|x t IH].
  - exists [], [], []. split; [reflexivity|].
    cbn [fence_loop]. rewrite app_nil_r. reflexivity.
  - cbn [fence_loop]. destruct (startswith x fence); cbn [andb negb].
    + destruct (fence_loop_inside_segment t acc) as (mid & post & E & R).
      exists [x], mid, post. rewrite R.
      split; [rewrite E; reflexivity | reflexivity].
    + destruct IH as (pre & mid & post & E & R).
      exists (x :: pre), mid, post. rewrite R.
      split; [rewrite E; reflexivity | reflexivity].
Qed.

(** X1.  The stripped text is a contiguous part of the reply: stripping
    never adds or rearranges text, and never makes the text longer. *)
Theorem strip_fence_part (response_text : string) :
  (exists a b, response_text = a ++ strip_fence response_text ++ b) /\
  (String.length (strip_fence response_text) <= String.length response_text)%nat.
Proof.
  assert (P : exists a b, response_text = a ++ strip_fence response_text ++ b).
  { unfold strip_fence. destruct (startswith response_text fence).
    - destruct (fence_loop_segment (split nl response_text) [])
        as (pre & mid & post & E & R).
      rewrite R. cbn [app].
      destruct (join_segment pre mid post) as (a & b & J).
      exists a, b. unfold NL in J. rewrite <- J, <- E. symmetry. apply join_split.
    - exists EmptyString, EmptyString. rewrite append_nil_r. reflexivity. }
  split; [exact P|].
  destruct P as (a & b & E). rewrite E at 2.
  rewrite !length_app. lia.
Qed.

(** The parts of a split hold no separator. *)
Lemma split_parts_lack (sep : ascii) (s : string) :
  forallb (lacks sep) (split sep s) = true.
Proof.
  induction s as [|c r IH]; [reflexivity|].
  cbn [split]. destruct (Ascii.eqb c sep) eqn:Hc.
  - cbn [forallb lacks]. exact IH.
  - destruct (split sep r) as [|h t]; cbn [forallb lacks] in *.
    + rewrite Hc. reflexivity.
    + rewrite Hc. exact IH.
Qed.

(** [sep.join(parts).split(sep) == parts], for parts without separator. *)
Lemma split_join (lines : list string) :
  lines <> [] ->
  forallb (lacks nl) lines = true ->
  split nl (join NL lines) = lines.
Proof.
  induction lines as [|x t IH]; intros Hne H; [contradiction Hne; reflexivity|].
  cbn [forallb] in H. apply andb_true_iff in H. destruct H as [Hx Ht].
  destruct t as [|y t'].
  - apply split_lacks. exact Hx.
  - change (join NL (x :: y :: t')) with (x ++ NL ++ join NL (y :: t')).
    rewrite (split_first_line _ _ Hx), IH by (discriminate || exact Ht).
    reflexivity.
Qed.

(** X2.  What goes to the decoder never starts with a fence, and after a
    reply that did start with one, no line of it starts with a fence. *)
Theorem strip_fence_fence_free (response_text : string) :
  startswith (strip_fence response_text) fence = false /\
  (startswith response_text fence = true ->
   fence_free (strip_fence response_text) = true).
Proof.
  split.
  - destruct (startswith response_text fence) eqn:H.
    + apply strip_fence_plain. exact H.
    + unfold strip_fence. rewrite H. exact H.
  - intros H. unfold fence_free, strip_fence. rewrite H.
    pose proof (fence_loop_plain (split nl response_text) false [] eq_refl) as P.
    destruct (fence_loop_segment (split nl response_text) [])
      as (pre & mid & post & E & R).
    rewrite R in *. cbn [app] in *.
    pose proof (split_parts_lack nl response_text) as L.
    rewrite E, !forallb_app in L.
    apply andb_true_iff in L. destruct L as [_ L].
    apply andb_true_iff in L. destruct L as [L _].
    destruct mid as [|m mid']; [reflexivity|].
    change (String nl EmptyString) with NL.
    rewrite split_join by (discriminate || exact L). exact P.
Qed.

Lemma strip_fence_fence_free_witness :
  fence_free (strip_fence ("```" ++ NL ++ "a" ++ NL ++ "```" ++ NL ++ "```b"))
  = true.
Proof.
  exact (proj2 (strip_fence_fence_free
                  ("```" ++ NL ++ "a" ++ NL ++ "```" ++ NL ++ "```b")) eq_refl).
Defined.

End FenceContent.

(* ===================================================================== *)
(** ** More on media types                                               *)
(* ===================================================================== *)

Section MediaTypes.
Import PyStr PosixPath.

(** X3.  Whatever the path, the media type is one of the four the table
    names. *)
Theorem get_media_type_range (image_path : string) :
  In (get_media_type image_path)
     ["image/png"; "image/jpeg"; "image/gif"; "image/webp"].
Proof.
  unfold get_media_type, media_types.
  generalize (lower (suffix image_path)). intros ext. cbn [table_get].
  repeat match goal with
         | |- context [String.eqb ?a ext] => destruct (String.eqb a ext)
         end; cbn [In]; auto 6.
Qed.

(** X4.  For a file [stem.ext], the media type depends on nothing but the
    extension with its case folded: neither the directory (dots in it
    included), nor the stem, nor the case of the extension matters. *)
Theorem get_media_type_extension_only
        (dir1 stem1 ext1 dir2 stem2 ext2 : string) :
  stem1 <> EmptyString -> ext1 <> EmptyString ->
  lacks "/" stem1 = true -> lacks "/" ext1 = true -> lacks "." ext1 = true ->
  stem2 <> EmptyString -> ext2 <> EmptyString ->
  lacks "/" stem2 = true -> lacks "/" ext2 = true -> lacks "." ext2 = true ->
  lower ext1 = lower ext2 ->
  get_media_type (dir1 ++ "/" ++ stem1 ++ "." ++ ext1)
  = get_media_type (dir2 ++ "/" ++ stem2 ++ "." ++ ext2).
Proof.
  intros A1 A2 A3 A4 A5 B1 B2 B3 B4 B5 E.
  rewrite (get_media_type_of_file dir1 stem1 ext1 A1 A2 A3 A4 A5).
  rewrite (get_media_type_of_file dir2 stem2 ext2 B1 B2 B3 B4 B5).
  rewrite E. reflexivity.
Qed.

Lemma get_media_type_extension_only_witness :
  get_media_type "/home/a.gif/Shot 1.JPG" = get_media_type "shots/menu.jpg".
Proof.
  apply (get_media_type_extension_only "/home/a.gif" "Shot 1" "JPG"
           "shots" "menu" "jpg");
    solve [reflexivity | discriminate].
Defined.

(** X5.  A file whose name is a dot followed by an extension, such as
    [.jpg], has no suffix for [pathlib]: its media type is [image/png]
    whatever the extension says. *)
Theorem get_media_type_dotfile (dir ext : string) :
  ext <> EmptyString -> lacks "/" ext = true -> lacks "." ext = true ->
  get_media_type (dir ++ "/." ++ ext) = "image/png" /\
  get_media_type ("." ++ ext) = "image/png".
Proof.
  intros Hext Hslash Hdot. cbn [append].
  assert (Hline : lacks "/" (String "." ext) = true)
    by (cbn [lacks]; rewrite Hslash; reflexivity).
  assert (Hkept : kept (String "." ext) = true).
  { unfold kept. cbn [String.eqb].
    destruct ext; [contradiction Hext; reflexivity | reflexivity]. }
  assert (Hsuffix : forall n, name n = String "." ext -> suffix n = EmptyString).
  { intros n Hn. unfold suffix. rewrite Hn. cbn [rfind].
    rewrite (rfind_lacks _ _ Hdot). reflexivity. }
  unfold get_media_type. split.
  - rewrite Hsuffix; [reflexivity|]. unfold name, parts.
    rewrite split_app, (split_lacks _ _ Hline), filter_app.
    cbn [filter]. rewrite Hkept. apply last_last.
  - rewrite Hsuffix; [reflexivity|]. unfold name, parts.
    rewrite (split_lacks _ _ Hline). cbn [filter]. rewrite Hkept. reflexivity.
Qed.

Lemma get_media_type_dotfile_witness :
  get_media_type "/tmp/.jpg" = "image/png".
Proof.
  exact (proj1 (get_media_type_dotfile "/tmp" "jpg"
                  ltac:(discriminate) eq_refl eq_refl)).
Defined.

End MediaTypes.

(* ===================================================================== *)
(** ** More on runs                                                      *)
(* ===================================================================== *)

Section MoreRuns.

Context {pyfloat : Type}.
Variable floatstr : pyfloat -> string.
Variable float_bool : pyfloat -> bool.
Variable json_loads : string -> exn + value pyfloat.
Variable py_str : value pyfloat -> string.

Local Open Scope run_scope.

Local Abbreviation run_main := (main floatstr float_bool json_loads py_str).
Local Abbreviation run_try := (try_block floatstr float_bool json_loads py_str).
Local Abbreviation run_find := (find_mode floatstr float_bool json_loads py_str).

Lemma fst_bind {A B} (m : run A) (k : A -> run B) :
  fst (bind m k)
  = (fst m ++ match snd m with inr a => fst (k a) | inl _ => [] end)%list.
Proof.
  destruct m as [t [e | a]]; cbn [bind fst snd].
  - rewrite app_nil_r. reflexivity.
  - destruct (k a). reflexivity.
Qed.


Lemma encode_image_eq (w : World) (path : string) :
  encode_image w path
  = ([ReadFile path],
     match file_read w path with
     | inl e => inl e
     | inr data => inr (Base64.standard_b64encode data)
     end).
Proof.
  unfold encode_image, emit, lift. rewrite bind_ok. cbn [fst snd app].
  destruct (file_read w path); reflexivity.
Qed.

(** [find_element], step by step: each failure ends it where it happens. *)
Lemma find_element_cases (w : World) (path element : string) :
  find_element json_loads w path element
  = match image_size w path with
    | inl e => ([OpenImage path], inl e)
    | inr dims =>
        match file_read w path with
        | inl e => ([OpenImage path; ReadFile path], inl e)
        | inr data =>
            let req := vision_request (get_media_type path)
                         (Base64.standard_b64encode data)
                         (find_prompt (fst dims) (snd dims) element) in
            ([OpenImage path; ReadFile path; CreateMessage req],
             match messages_create w req with
             | inl e => inl e
             | inr [] => inl (Exn OtherException "list index out of range")
             | inr (TextBlock text :: _) => decoded json_loads text element
             | inr (NonTextBlock msg :: _) => inl (Exn OtherException msg)
             end)
        end
    end.
Proof.
  unfold find_element. rewrite get_image_dimensions_eq.
  destruct (image_size w path) as [e | dims]; [reflexivity|].
  rewrite bind_ok, encode_image_eq.
  destruct (file_read w path) as [e | data]; [reflexivity|].
  rewrite bind_ok. cbn [fst snd]. rewrite create_message_eq.
  cbv zeta.
  destruct (messages_create w _) as [e | content]; [reflexivity|].
  rewrite bind_ok. cbn [fst snd].
  destruct content as [|[text | msg] more]; [reflexivity | | reflexivity].
  rewrite first_text_ok, bind_ok. cbn [fst snd]. unfold decoded, lift.
  destruct (json_loads (strip_fence (PyStr.strip text))) as [e | result];
    [reflexivity|].
  rewrite bind_ok. cbn [fst snd]. rewrite ensure_element_silent. reflexivity.
Qed.

(** [describe_screen], step by step. *)
Lemma describe_screen_cases (w : World) (path : string) :
  describe_screen w path
  = match file_read w path with
    | inl e => ([ReadFile path], inl e)
    | inr data =>
        let req := vision_request (get_media_type path)
                     (Base64.standard_b64encode data) describe_prompt in
        ([ReadFile path; CreateMessage req],
         match messages_create w req with
         | inl e => inl e
         | inr [] => inl (Exn OtherException "list index out of range")
         | inr (TextBlock text :: _) => inr (PyStr.strip text)
         | inr (NonTextBlock msg :: _) => inl (Exn OtherException msg)
         end)
    end.
Proof.
  unfold describe_screen. rewrite encode_image_eq.
  destruct (file_read w path) as [e | data]; [reflexivity|].
  rewrite bind_ok. cbn [fst snd]. rewrite create_message_eq. cbv zeta.
  destruct (messages_create w _) as [e | content]; [reflexivity|].
  rewrite bind_ok. cbn [fst snd].
  destruct content as [|[text | msg] more]; reflexivity.
Qed.

Lemma handler_eq (e : exn) :
  handler floatstr e
  = ([Print (error_line "found" (handler_label e ++ exn_str e))], Exited 1).
Proof.
  unfold handler, handler_label.
  destruct (isinstance_APIError e); [reflexivity|].
  destruct (isinstance_JSONDecodeError e); reflexivity.
Qed.

(** Past the validations and with the client built, the run is the [try]
    block, followed by the line of the handler if the block raised. *)
Lemma main_try (w : World) (args : Args) :
  ready w args ->
  given (arg_find args) || arg_describe args = true ->
  run_main w args
  = match snd (run_try w args) with
    | inr _ => (NewClient :: fst (run_try w args), Exited 0)
    | inl e =>
        (NewClient :: fst (run_try w args)
           ++ [Print (error_line "found" (handler_label e ++ exn_str e))],
         Exited 1)%list
    end.
Proof.
  intros Hready Hmode.
  rewrite (main_ready floatstr float_bool json_loads py_str w args Hready Hmode).
  destruct (snd (run_try w args)) as [e | u]; [|reflexivity].
  rewrite handler_eq. reflexivity.
Qed.

Lemma finds_mode (args : Args) (element : string) :
  finds args element -> given (arg_find args) || arg_describe args = true.
Proof.
  intros [Hfind Hne]. rewrite Hfind. cbn [given].
  apply String.eqb_neq in Hne. rewrite Hne. reflexivity.
Qed.

Lemma describes_mode (args : Args) :
  describes args -> given (arg_find args) || arg_describe args = true.
Proof. intros [_ H]. rewrite H. apply orb_true_r. Qed.

Lemma try_block_finds (w : World) (args : Args) (element : string) :
  finds args element -> run_try w args = run_find w args element.
Proof.
  intros [Hfind Hne].
  exact (proj2 (try_block_find floatstr float_bool json_loads py_str
                  w args element Hfind Hne)).
Qed.

Lemma try_block_describes (w : World) (args : Args) :
  describes args -> run_try w args = describe_mode floatstr w args.
Proof. intros [Hfind Hdescribe]. unfold try_block. rewrite Hfind, Hdescribe. reflexivity. Qed.

(** In find mode the block stops where [find_element] raises. *)
Lemma find_mode_raise (w : World) (args : Args) (element : string)
      (t : list event) (e : exn) :
  find_element json_loads w (arg_image args) element = (t, inl e) ->
  run_find w args element = (t, inl e).
Proof. intros E. unfold find_mode. rewrite E. reflexivity. Qed.

Lemma describe_mode_raise (w : World) (args : Args) (t : list event) (e : exn) :
  describe_screen w (arg_image args) = (t, inl e) ->
  describe_mode floatstr w args = (t, inl e).
Proof. intros E. unfold describe_mode. rewrite E. reflexivity. Qed.

(** X6.  With the image there and neither a non-empty [--find] nor
    [--describe] (an empty [--find ""] counts as none), [main] prints the
    usage error object and exits with code 1, before a client is built. *)
Theorem usage_error_report (w : World) (args : Args) :
  path_exists w (arg_image args) = true ->
  given (arg_find args) = false ->
  arg_describe args = false ->
  run_main w args
  = ([Print (error_line "success" "Specify --find 'element' or --describe")],
     Exited 1).
Proof.
  intros Hexists Hfind Hdescribe. unfold main.
  rewrite Hexists, Hfind, Hdescribe. reflexivity.
Qed.

(** X7.  When building the client raises, nothing is read and no request
    is sent.  An [AuthenticationError] is reported as the object
    [{"success": false, "error": "ANTHROPIC_API_KEY not set or invalid"}]
    with exit code 1; any other exception is not handled and ends the
    process with nothing printed. *)
Theorem client_failure (w : World) (args : Args) (e : exn) :
  path_exists w (arg_image args) = true ->
  given (arg_find args) || arg_describe args = true ->
  new_client w = Some e ->
  run_main w args
  = if isinstance_AuthenticationError e then
      ([NewClient;
        Print (error_line "success" "ANTHROPIC_API_KEY not set or invalid")],
       Exited 1)
    else ([NewClient], Uncaught e).
Proof.
  intros Hexists Hmode Hclient. unfold main.
  rewrite Hexists, Hclient. cbn [negb]. rewrite <- negb_orb, Hmode. cbn [negb].
  destruct (isinstance_AuthenticationError e); reflexivity.
Qed.

Lemma answered_run (w : World) (args : Args)
      (answer : exn + list content_block) :
  answered w args answer ->
  given (arg_find args) || arg_describe args = true /\
  exists t,
    stdout t = [] /\ length (requests t) = 1 /\
    ((exists element,
         finds args element /\
         run_try w args = run_find w args element /\
         find_element json_loads w (arg_image args) element
         = (t, match answer with
               | inl e => inl e
               | inr [] => inl (Exn OtherException "list index out of range")
               | inr (TextBlock text :: _) => decoded json_loads text element
               | inr (NonTextBlock msg :: _) => inl (Exn OtherException msg)
               end)) \/
     (describes args /\
      run_try w args = describe_mode floatstr w args /\
      describe_screen w (arg_image args)
      = (t, match answer with
            | inl e => inl e
            | inr [] => inl (Exn OtherException "list index out of range")
            | inr (TextBlock text :: _) => inr (PyStr.strip text)
            | inr (NonTextBlock msg :: _) => inl (Exn OtherException msg)
            end))).
Proof.
  intros [(element & Hfinds & (width & height & data & Hsize & Hread & Hmsg))
         | (Hdescribes & (data & Hread & Hmsg))].
  - split; [exact (finds_mode _ _ Hfinds)|].
    eexists. split; [|split; [|left; exists element; split; [exact Hfinds|split;
      [exact (try_block_finds w args element Hfinds)|]]]].
    3: { rewrite find_element_cases, Hsize, Hread. cbv zeta. cbn [fst snd].
         rewrite Hmsg. reflexivity. }
    all: reflexivity.
  - split; [exact (describes_mode _ Hdescribes)|].
    eexists. split; [|split; [|right; split; [exact Hdescribes|split;
      [exact (try_block_describes w args Hdescribes)|]]]].
    3: { rewrite describe_screen_cases, Hread. cbv zeta. rewrite Hmsg.
         reflexivity. }
    all: reflexivity.
Qed.

(** X8.  When the request itself raises, in either mode, the run has
    sent that one request and prints one line, the object with
    [found] false and the error text after the words of the handler that
    takes it: [Anthropic API error: ] for an API error (an authentication
    error raised by the request among them), and exits with code 1. *)
Theorem request_error_report (w : World) (args : Args) (e : exn) :
  ready w args ->
  answered w args (inl e) ->
  stdout (fst (run_main w args))
    = [error_line "found" (handler_label e ++ exn_str e)] /\
  snd (run_main w args) = Exited 1 /\
  length (requests (fst (run_main w args))) = 1 /\
  (isinstance_APIError e = true -> handler_label e = "Anthropic API error: ").
Proof.
  intros Hready Hanswer.
  destruct (answered_run w args _ Hanswer)
    as (Hmode & t & Hquiet & Hone & [(element & _ & Htry & E) | (_ & Htry & E)]).
  - apply find_mode_raise in E. rewrite <- Htry in E.
    rewrite (main_try w args Hready Hmode), E. cbn [fst snd].
    repeat split.
    + cbn [stdout]. rewrite stdout_app, Hquiet. reflexivity.
    + unfold requests in *. cbn [flat_map app]. rewrite flat_map_app.
      rewrite List.length_app, Hone. reflexivity.
    + intros H. unfold handler_label. rewrite H. reflexivity.
  - apply describe_mode_raise in E. rewrite <- Htry in E.
    rewrite (main_try w args Hready Hmode), E. cbn [fst snd].
    repeat split.
    + cbn [stdout]. rewrite stdout_app, Hquiet. reflexivity.
    + unfold requests in *. cbn [flat_map app]. rewrite flat_map_app.
      rewrite List.length_app, Hone. reflexivity.
    + intros H. unfold handler_label. rewrite H. reflexivity.
Qed.

(** X9.  When the response has no content block, [content[0]] raises:
    in either mode the run prints the object with the error text
    [Unexpected error: list index out of range] and exits with code 1. *)
Theorem empty_content_report (w : World) (args : Args) :
  ready w args ->
  answered w args (inr []) ->
  stdout (fst (run_main w args))
    = [error_line "found" "Unexpected error: list index out of range"] /\
  snd (run_main w args) = Exited 1.
Proof.
  intros Hready Hanswer.
  destruct (answered_run w args _ Hanswer)
    as (Hmode & t & Hquiet & _ & [(element & _ & Htry & E) | (_ & Htry & E)]).
  - apply find_mode_raise in E. rewrite <- Htry in E.
    rewrite (main_try w args Hready Hmode), E. cbn [fst snd].
    split; [|reflexivity].
    cbn [stdout]. rewrite stdout_app, Hquiet. reflexivity.
  - apply describe_mode_raise in E. rewrite <- Htry in E.
    rewrite (main_try w args Hready Hmode), E. cbn [fst snd].
    split; [|reflexivity].
    cbn [stdout]. rewrite stdout_app, Hquiet. reflexivity.
Qed.

(** *** Where the effects of a run come from *)

(** After [find_element], find mode only prints. *)
Lemma find_mode_events (w : World) (args : Args) (element : string) :
  exists lines,
    fst (run_find w args element)
    = (fst (find_element json_loads w (arg_image args) element)
         ++ map Print lines)%list.
Proof.
  unfold find_mode. rewrite fst_bind.
  destruct (snd (find_element json_loads w (arg_image args) element))
    as [e | result].
  - exists []. reflexivity.
  - destruct (arg_json args); [refine (ex_intro _ [_] _); reflexivity|].
    destruct result;
      try (exists []; reflexivity).
    unfold get, ret. rewrite bind_ok. cbn [fst snd app].
    destruct (truthy float_bool _).
    + refine (ex_intro _ [_; _; _; _] _). reflexivity.
    + refine (ex_intro _ [_; _] _). reflexivity.
Qed.

Lemma describe_mode_events (w : World) (args : Args) :
  exists lines,
    fst (describe_mode floatstr w args)
    = (fst (describe_screen w (arg_image args)) ++ map Print lines)%list.
Proof.
  unfold describe_mode. rewrite fst_bind.
  destruct (snd (describe_screen w (arg_image args))) as [e | d].
  - exists []. reflexivity.
  - destruct (arg_json args); refine (ex_intro _ [_] _); reflexivity.
Qed.

(** The events of a run that are no prints are those of building the
    client and of the one call of [find_element] or [describe_screen]. *)
Lemma main_events (w : World) (args : Args) :
  exists pre core lines,
    fst (run_main w args) = (pre ++ core ++ map Print lines)%list /\
    (pre = [] \/ pre = [NewClient]) /\
    (core = [] \/
     (exists element,
         finds args element /\
         core = fst (find_element json_loads w (arg_image args) element)) \/
     (describes args /\ core = fst (describe_screen w (arg_image args)))).
Proof.
  unfold main.
  destruct (path_exists w (arg_image args));
    [|refine (ex_intro _ [] (ex_intro _ [] (ex_intro _ [_] _)));
       cbn [negb fst app map]; auto].
  cbn [negb].
  destruct (given (arg_find args)) eqn:Hgiven.
  - cbn [negb andb].
    destruct (new_client w) as [e|].
    + destruct (isinstance_AuthenticationError e).
      * refine (ex_intro _ [NewClient] (ex_intro _ [] (ex_intro _ [_] _))).
        cbn [fst app map]. auto.
      * exists [NewClient], [], []. cbn [fst app map]. auto.
    + assert (F : finds args (text_of (arg_find args))).
      { unfold finds. destruct (arg_find args) as [el|]; [|discriminate].
        split; [reflexivity|]. cbn [given text_of] in *.
        apply String.eqb_neq. apply negb_true_iff. exact Hgiven. }
      unfold try_block. rewrite Hgiven.
      destruct (find_mode_events w args (text_of (arg_find args))) as [lines E].
      destruct (run_find w args (text_of (arg_find args))) as [t [e | u]];
        cbn [fst] in E; subst t.
      * rewrite handler_eq.
        exists [NewClient], (fst (find_element json_loads w (arg_image args)
                                    (text_of (arg_find args)))),
          (lines ++ [error_line "found" (handler_label e ++ exn_str e)])%list.
        split; [|split; [auto | right; left; eauto]].
        cbn [fst app]. rewrite map_app, <- !app_assoc. reflexivity.
      * exists [NewClient], (fst (find_element json_loads w (arg_image args)
                                    (text_of (arg_find args)))), lines.
        split; [reflexivity | split; [auto | right; left; eauto]].
  - cbn [negb andb].
    destruct (arg_describe args) eqn:Hdescribe;
      [|refine (ex_intro _ [] (ex_intro _ [] (ex_intro _ [_] _)));
       cbn [negb fst app map]; auto].
    cbn [negb].
    destruct (new_client w) as [e|].
    + destruct (isinstance_AuthenticationError e).
      * refine (ex_intro _ [NewClient] (ex_intro _ [] (ex_intro _ [_] _))).
        cbn [fst app map]. auto.
      * exists [NewClient], [], []. cbn [fst app map]. auto.
    + assert (D : describes args) by (split; assumption).
      unfold try_block. rewrite Hgiven, Hdescribe.
      destruct (describe_mode_events w args) as [lines E].
      destruct (describe_mode floatstr w args) as [t [e | u]];
        cbn [fst] in E; subst t.
      * rewrite handler_eq.
        exists [NewClient], (fst (describe_screen w (arg_image args))),
          (lines ++ [error_line "found" (handler_label e ++ exn_str e)])%list.
        split; [|split; [auto | right; right; auto]].
        cbn [fst app]. rewrite map_app, <- !app_assoc. reflexivity.
      * exists [NewClient], (fst (describe_screen w (arg_image args))), lines.
        split; [reflexivity | split; [auto | right; right; auto]].
Qed.

Lemma requests_prints (lines : list string) : requests (map Print lines) = [].
Proof. induction lines as [|x t IH]; [reflexivity | exact IH]. Qed.

Lemma opened_prints (lines : list string) : opened (map Print lines) = [].
Proof. induction lines as [|x t IH]; [reflexivity | exact IH]. Qed.

Lemma files_read_prints (lines : list string) : files_read (map Print lines) = [].
Proof. induction lines as [|x t IH]; [reflexivity | exact IH]. Qed.

(** What a run sends, opens and reads is what its one call of
    [find_element] or [describe_screen] does. *)
Lemma main_observed (w : World) (args : Args) :
  exists core,
    requests (fst (run_main w args)) = requests core /\
    opened (fst (run_main w args)) = opened core /\
    files_read (fst (run_main w args)) = files_read core /\
    (core = [] \/
     (exists element,
         finds args element /\
         core = fst (find_element json_loads w (arg_image args) element)) \/
     (describes args /\ core = fst (describe_screen w (arg_image args)))).
Proof.
  destruct (main_events w args) as (pre & core & lines & E & Hpre & Hcore).
  exists core. rewrite E. unfold requests, opened, files_read.
  rewrite !flat_map_app.
  fold (requests (map Print lines)) (opened (map Print lines))
       (files_read (map Print lines)).
  rewrite requests_prints, opened_prints, files_read_prints, !app_nil_r.
  destruct Hpre as [-> | ->]; cbn [flat_map app]; auto.
Qed.

Lemma finds_not_describes (args : Args) (element : string) :
  finds args element -> describes args -> False.
Proof.
  intros [Hfind Hne] [Hgiven _]. rewrite Hfind in Hgiven. cbn [given] in Hgiven.
  apply String.eqb_neq in Hne. rewrite Hne in Hgiven. discriminate.
Qed.

Lemma finds_unique (args : Args) (a b : string) :
  finds args a -> finds args b -> a = b.
Proof. intros [Ha _] [Hb _]. rewrite Ha in Hb. injection Hb. auto. Qed.


(** X11.  Describe mode never has Pillow open the image: whatever the
    world, a describe run opens nothing, so a file Pillow cannot parse is
    still sent. *)
Theorem describe_opens_nothing (w : World) (args : Args) :
  describes args ->
  opened (fst (run_main w args)) = [].
Proof.
  intros Hdescribes.
  destruct (main_observed w args) as (core & _ & Hopen & _ & Hcore).
  rewrite Hopen.
  destruct Hcore as [-> | [(element & Hfinds & _) | (_ & ->)]].
  - reflexivity.
  - destruct (finds_not_describes _ _ Hfinds Hdescribes).
  - rewrite describe_screen_cases.
    destruct (file_read w (arg_image args)); reflexivity.
Qed.

(** *** Images that do not load *)

(** X12.  In find mode, when Pillow cannot open the image, the run stops
    there: the file is not read and no request is sent; [main] prints the
    error object with the words of the handler and exits with code 1. *)
Theorem unopenable_image (w : World) (args : Args) (element : string) (e : exn) :
  ready w args ->
  finds args element ->
  image_size w (arg_image args) = inl e ->
  run_main w args
  = ([NewClient; OpenImage (arg_image args);
      Print (error_line "found" (handler_label e ++ exn_str e))],
     Exited 1).
Proof.
  intros Hready Hfinds Hsize.
  assert (E : run_try w args = ([OpenImage (arg_image args)], inl e)).
  { rewrite (try_block_finds w args element Hfinds).
    apply find_mode_raise. rewrite find_element_cases, Hsize. reflexivity. }
  rewrite (main_try w args Hready (finds_mode _ _ Hfinds)), E. reflexivity.
Qed.

(** X13.  When reading the image file raises, in either mode, no request
    is sent; [main] prints the error object and exits with code 1. *)
Theorem unreadable_file (w : World) (args : Args) (e : exn) :
  ready w args ->
  (exists element dims,
      finds args element /\ image_size w (arg_image args) = inr dims) \/
  describes args ->
  file_read w (arg_image args) = inl e ->
  requests (fst (run_main w args)) = [] /\
  stdout (fst (run_main w args))
    = [error_line "found" (handler_label e ++ exn_str e)] /\
  snd (run_main w args) = Exited 1.
Proof.
  intros Hready [(element & dims & Hfinds & Hsize) | Hdescribes] Hread.
  - assert (E : run_try w args
                = ([OpenImage (arg_image args); ReadFile (arg_image args)], inl e)).
    { rewrite (try_block_finds w args element Hfinds).
      apply find_mode_raise. rewrite find_element_cases, Hsize, Hread.
      reflexivity. }
    rewrite (main_try w args Hready (finds_mode _ _ Hfinds)), E.
    repeat split.
  - assert (E : run_try w args = ([ReadFile (arg_image args)], inl e)).
    { rewrite (try_block_describes w args Hdescribes).
      apply describe_mode_raise. rewrite describe_screen_cases, Hread.
      reflexivity. }
    rewrite (main_try w args Hready (describes_mode _ Hdescribes)), E.
    repeat split.
Qed.

(** *** The mode flags *)

(** X14.  A non-empty [--find] wins: with it, the run is the same with
    and without [--describe]. *)
Theorem find_precedence (w : World) (args : Args) (flag : bool) :
  given (arg_find args) = true ->
  run_main w args
  = run_main w {| arg_image := arg_image args;
                  arg_find := arg_find args;
                  arg_describe := flag;
                  arg_json := arg_json args |}.
Proof.
  intros H. unfold main, try_block, find_mode.
  cbn [arg_image arg_find arg_describe arg_json]. rewrite H. reflexivity.
Qed.

(** X15.  An empty [--find] is no [--find]: the run is the same as when
    the option is left out. *)
Theorem empty_find_ignored (w : World) (args : Args) :
  arg_find args = Some EmptyString ->
  run_main w args
  = run_main w {| arg_image := arg_image args;
                  arg_find := None;
                  arg_describe := arg_describe args;
                  arg_json := arg_json args |}.
Proof.
  intros H. unfold main, try_block, describe_mode.
  cbn [arg_image arg_find arg_describe arg_json]. rewrite H. reflexivity.
Qed.

(** *** What a completed run prints *)

Lemma find_reply_run (w : World) (args : Args) (element raw : string) :
  finds args element ->
  find_reply w (arg_image args) element raw ->
  exists t,
    stdout t = [] /\
    run_try w args
    = bind (t, decoded json_loads raw element)
        (fun result =>
           if arg_json args then print (json_dumps_indent floatstr 2 result)
           else
             found <- get result "found" (VBool false) ;;
             if truthy float_bool found then
               description <- get result "description" (VStr element) ;;
               print ("Found: " ++ py_str description) ;;;
               x <- get result "x" (VStr "?") ;;
               y <- get result "y" (VStr "?") ;;
               print ("Coordinates: (" ++ py_str x ++ ", " ++ py_str y ++ ")") ;;;
               confidence <- get result "confidence" (VStr "unknown") ;;
               print ("Confidence: " ++ py_str confidence) ;;;
               print (json_dumps floatstr result)
             else
               print ("Not found: " ++ element) ;;;
               print (json_dumps floatstr result)).
Proof.
  intros Hfinds Hreply.
  destruct (find_element_reply json_loads w _ _ _ Hreply) as (t & Hquiet & E).
  exists t. split; [exact Hquiet|].
  rewrite (try_block_finds w args element Hfinds). unfold find_mode.
  rewrite E. reflexivity.
Qed.

(** X16.  In find mode with [--json], whatever [find_element] returns is
    printed with [indent=2] and the run ends with exit code 0, a found
    element or not. *)
Theorem find_json_report (w : World) (args : Args) (element raw : string)
        (result : value pyfloat) :
  ready w args ->
  finds args element ->
  arg_json args = true ->
  find_reply w (arg_image args) element raw ->
  decoded json_loads raw element = inr result ->
  stdout (fst (run_main w args)) = [json_dumps_indent floatstr 2 result] /\
  snd (run_main w args) = Exited 0.
Proof.
  intros Hready Hfinds Hjson Hreply Hdecoded.
  destruct (find_reply_run w args element raw Hfinds Hreply) as (t & Hquiet & E).
  rewrite Hdecoded, bind_ok, Hjson in E.
  rewrite (main_try w args Hready (finds_mode _ _ Hfinds)), E.
  cbn [fst snd stdout print emit]. rewrite stdout_app, Hquiet.
  split; reflexivity.
Qed.

(** X17.  In describe mode without [--json], when the service answers,
    [main] prints the trimmed reply and nothing else, and ends with exit
    code 0. *)
Theorem describe_text_report (w : World) (args : Args) (raw : string) :
  ready w args ->
  describes args ->
  arg_json args = false ->
  describe_reply w (arg_image args) raw ->
  stdout (fst (run_main w args)) = [PyStr.strip raw] /\
  snd (run_main w args) = Exited 0.
Proof.
  intros Hready Hdescribes Hjson Hreply.
  destruct (describe_screen_reply w _ _ Hreply) as (t & Hquiet & E).
  assert (T : run_try w args = ((t ++ [Print (PyStr.strip raw)])%list, inr tt)).
  { rewrite (try_block_describes w args Hdescribes). unfold describe_mode.
    rewrite E, bind_ok, Hjson. reflexivity. }
  rewrite (main_try w args Hready (describes_mode _ Hdescribes)), T.
  cbn [fst snd stdout]. rewrite stdout_app, Hquiet. split; reflexivity.
Qed.

Lemma with_element_get (o : list (string * value pyfloat))
      (element key : string) (default : value pyfloat) :
  key <> "element" ->
  dict_get (with_element o element) key default = dict_get o key default.
Proof.
  intros N. unfold dict_get. rewrite with_element_other by exact N. reflexivity.
Qed.

(** The lines of a find run in text output, for a reply that decodes to
    the object [o]. *)
Lemma find_text_stdout (w : World) (args : Args) (element raw : string)
      (o : list (string * value pyfloat)) :
  ready w args ->
  finds args element ->
  arg_json args = false ->
  find_reply w (arg_image args) element raw ->
  json_loads (strip_fence (PyStr.strip raw)) = inr (VDict o) ->
  stdout (fst (run_main w args))
    = (if truthy float_bool (dict_get o "found" (VBool false)) then
         ["Found: " ++ py_str (dict_get o "description" (VStr element));
          "Coordinates: (" ++ py_str (dict_get o "x" (VStr "?")) ++ ", "
             ++ py_str (dict_get o "y" (VStr "?")) ++ ")";
          "Confidence: " ++ py_str (dict_get o "confidence" (VStr "unknown"));
          json_dumps floatstr (VDict (with_element o element))]
       else
         ["Not found: " ++ element;
          json_dumps floatstr (VDict (with_element o element))]) /\
  snd (run_main w args) = Exited 0.
Proof.
  intros Hready Hfinds Hjson Hreply Hloads.
  destruct (find_reply_run w args element raw Hfinds Hreply) as (t & Hquiet & E).
  rewrite (decoded_object json_loads _ _ _ Hloads), bind_ok, Hjson in E.
  unfold get, ret in E. rewrite !bind_ok in E. cbn [fst snd] in E.
  rewrite !with_element_get in E by discriminate.
  rewrite (main_try w args Hready (finds_mode _ _ Hfinds)), E. clear E.
  destruct (truthy float_bool (dict_get o "found" (VBool false))).
  - unfold print, emit. rewrite !bind_ok. cbn [fst snd app stdout].
    rewrite stdout_app, Hquiet. split; reflexivity.
  - unfold print, emit. rewrite !bind_ok. cbn [fst snd app stdout].
    rewrite stdout_app, Hquiet. split; reflexivity.
Qed.

(** X18.  In find mode without [--json], for a reply that decodes to an
    object, the truth value of its [found] decides the report: if true,
    the lines [Found:], [Coordinates:] and [Confidence:], where a missing
    description is the element asked for, a missing [x] or [y] is [?] and
    a missing confidence is [unknown]; if false, and so for [0], [null],
    an empty string or no [found] at all, the line [Not found:].  The
    returned object follows as JSON and the exit code is 0. *)
Theorem find_text_report (w : World) (args : Args) (element raw : string)
        (o : list (string * value pyfloat)) :
  ready w args ->
  finds args element ->
  arg_json args = false ->
  find_reply w (arg_image args) element raw ->
  json_loads (strip_fence (PyStr.strip raw)) = inr (VDict o) ->
  (truthy float_bool (dict_get o "found" (VBool false)) = true ->
   stdout (fst (run_main w args))
   = ["Found: " ++ py_str (dict_get o "description" (VStr element));
      "Coordinates: (" ++ py_str (dict_get o "x" (VStr "?")) ++ ", "
         ++ py_str (dict_get o "y" (VStr "?")) ++ ")";
      "Confidence: " ++ py_str (dict_get o "confidence" (VStr "unknown"));
      json_dumps floatstr (VDict (with_element o element))]) /\
  (truthy float_bool (dict_get o "found" (VBool false)) = false ->
   stdout (fst (run_main w args))
   = ["Not found: " ++ element;
      json_dumps floatstr (VDict (with_element o element))]) /\
  snd (run_main w args) = Exited 0.
Proof.
  intros Hready Hfinds Hjson Hreply Hloads.
  destruct (find_text_stdout w args element raw o Hready Hfinds Hjson Hreply
              Hloads) as [Hout Hexit].
  rewrite Hout. split; [|split; [|exact Hexit]].
  - intros Hfound. rewrite Hfound. reflexivity.
  - intros Hfound. rewrite Hfound. reflexivity.
Qed.

(** *** Replies that decode to something else than an object *)

Lemma ensure_element_other (v : value pyfloat) (element : string) :
  match v with VDict _ => False | _ => True end ->
  snd (ensure_element v element) = inr v \/
  exists msg, snd (ensure_element v element) = inl (Exn OtherException msg).
Proof.
  intros H. unfold ensure_element, contains_key, setitem, ret, raise.
  destruct v; try contradiction; try (right; eexists; reflexivity).
  - rewrite bind_ok. cbn [fst snd].
    destruct (PyStr.contains s "element"); cbn [negb];
      [left; reflexivity | right; eexists; reflexivity].
  - rewrite bind_ok. cbn [fst snd].
    destruct (existsb (is_str "element") items); cbn [negb];
      [left; reflexivity | right; eexists; reflexivity].
Qed.

(** X19.  In find mode without [--json], a reply that decodes to
    anything but an object (a list, a string, a number, [null]) never
    gives a report: [main] prints one error object whose text starts with
    [Unexpected error: ] and exits with code 1. *)
Theorem non_object_reply_text (w : World) (args : Args) (element raw : string)
        (v : value pyfloat) :
  ready w args ->
  finds args element ->
  arg_json args = false ->
  find_reply w (arg_image args) element raw ->
  json_loads (strip_fence (PyStr.strip raw)) = inr v ->
  match v with VDict _ => False | _ => True end ->
  exists msg,
    stdout (fst (run_main w args))
      = [error_line "found" ("Unexpected error: " ++ msg)] /\
    snd (run_main w args) = Exited 1.
Proof.
  intros Hready Hfinds Hjson Hreply Hloads Hother.
  destruct (find_reply_run w args element raw Hfinds Hreply) as (t & Hquiet & E).
  assert (D : decoded json_loads raw element = snd (ensure_element v element))
    by (unfold decoded; rewrite Hloads; reflexivity).
  rewrite D in E.
  assert (R : exists msg, run_try w args = (t, inl (Exn OtherException msg))).
  { destruct (ensure_element_other v element Hother) as [Hsame | [msg Hraise]].
    - rewrite Hsame, bind_ok, Hjson in E.
      destruct v; try contradiction;
        unfold get, raise in E; rewrite bind_raise in E;
        cbn [fst snd] in E; rewrite app_nil_r in E;
        eexists; exact E.
    - exists msg. rewrite Hraise in E. exact E. }
  destruct R as [msg R]. exists msg.
  rewrite (main_try w args Hready (finds_mode _ _ Hfinds)), R.
  cbn [fst snd stdout]. rewrite stdout_app, Hquiet. split; reflexivity.
Qed.

(** *** What find_element returns *)

Lemma decoded_has_element (raw element : string) (result : value pyfloat) :
  decoded json_loads raw element = inr result ->
  snd (contains_key result "element") = inr true.
Proof.
  unfold decoded.
  destruct (json_loads (strip_fence (PyStr.strip raw))) as [e | v];
    [discriminate|].
  unfold ensure_element, contains_key, setitem, ret, raise.
  destruct v; try discriminate.
  - rewrite bind_ok. cbn [fst snd].
    destruct (PyStr.contains s "element") eqn:C; cbn [negb]; [|discriminate].
    intros H. injection H as <-. cbn [snd]. rewrite C. reflexivity.
  - rewrite bind_ok. cbn [fst snd].
    destruct (existsb (is_str "element") items) eqn:C; cbn [negb];
      [|discriminate].
    intros H. injection H as <-. cbn [snd]. rewrite C. reflexivity.
  - rewrite bind_ok. cbn [fst snd].
    destruct (dict_contains items "element") eqn:C; cbn [negb].
    + intros H. injection H as <-. cbn [snd]. rewrite C. reflexivity.
    + intros H. injection H as <-. cbn [snd]. unfold dict_contains.
      rewrite dict_lookup_setitem_same. reflexivity.
Qed.

(** X20.  Whatever the world and whatever the reply decodes to, a value
    that [find_element] returns has ["element" in result] true: the
    function returns with the element in place or raises. *)
Theorem find_element_has_element (w : World) (path element : string)
        (result : value pyfloat) :
  snd (find_element json_loads w path element) = inr result ->
  snd (contains_key result "element") = inr true.
Proof.
  rewrite find_element_cases.
  destruct (image_size w path) as [e | dims]; [discriminate|].
  destruct (file_read w path) as [e | data]; [discriminate|].
  cbv zeta. cbn [snd].
  destruct (messages_create w _) as [e | [|[text | msg] more]];
    try discriminate.
  apply decoded_has_element.
Qed.

(** *** The description is trimmed *)

Lemma lstrip_first (s : string) (c : ascii) :
  first_char (PyStr.lstrip s) = Some c -> PyStr.isspace c = false.
Proof.
  induction s as [|a r IH]; cbn [PyStr.lstrip]; [discriminate|].
  destruct (PyStr.isspace a) eqn:Ha; [exact IH|].
  cbn [first_char]. intros H. injection H as <-. exact Ha.
Qed.

Lemma rstrip_first (s : string) (c : ascii) :
  first_char (PyStr.rstrip s) = Some c -> first_char s = Some c.
Proof.
  destruct s as [|a r]; cbn [PyStr.rstrip]; [discriminate|].
  destruct (PyStr.rstrip r); [destruct (PyStr.isspace a)|];
    cbn [first_char]; (discriminate || auto).
Qed.

Lemma rstrip_last (s : string) (c : ascii) :
  last_char (PyStr.rstrip s) = Some c -> PyStr.isspace c = false.
Proof.
  induction s as [|a r IH]; cbn [PyStr.rstrip]; [discriminate|].
  destruct (PyStr.rstrip r) as [|b r'].
  - destruct (PyStr.isspace a) eqn:Ha; cbn [last_char]; [discriminate|].
    intros H. injection H as <-. exact Ha.
  - exact IH.
Qed.

(** X21.  A description [describe_screen] returns has no white space at
    either end, whatever the service wrote around its text. *)
Theorem describe_screen_trimmed (w : World) (path description : string) :
  snd (describe_screen w path) = inr description ->
  (forall c, first_char description = Some c -> PyStr.isspace c = false) /\
  (forall c, last_char description = Some c -> PyStr.isspace c = false).
Proof.
  rewrite describe_screen_cases.
  destruct (file_read w path) as [e | data]; [discriminate|].
  cbv zeta. cbn [snd].
  destruct (messages_create w _) as [e | [|[text | msg] more]];
    try discriminate.
  intros H. injection H as <-. unfold PyStr.strip. split.
  - intros c Hc. apply rstrip_first in Hc. exact (lstrip_first _ _ Hc).
  - intros c Hc. exact (rstrip_last _ _ Hc).
Qed.

(** *** The JSON line *)

Lemma uint_one_line (d : Decimal.uint) :
  PyStr.lacks PyStr.nl (NilEmpty.string_of_uint d) = true.
Proof. induction d; cbn [NilEmpty.string_of_uint PyStr.lacks]; auto. Qed.

Lemma of_int_one_line (n : Z) : PyStr.lacks PyStr.nl (PyStr.of_int n) = true.
Proof.
  assert (U : forall d, PyStr.lacks PyStr.nl (NilZero.string_of_uint d) = true).
  { intros d. unfold NilZero.string_of_uint.
    destruct d; try reflexivity; apply uint_one_line. }
  unfold PyStr.of_int, NilZero.string_of_int.
  destruct (Z.to_int n) as [d | d]; [apply U|].
  cbn [PyStr.lacks]. rewrite U. reflexivity.
Qed.

Lemma join_one_line (sep : string) (lines : list string) :
  PyStr.lacks PyStr.nl sep = true ->
  forallb (PyStr.lacks PyStr.nl) lines = true ->
  PyStr.lacks PyStr.nl (PyStr.join sep lines) = true.
Proof.
  intros Hsep. induction lines as [|x t IH]; [reflexivity|].
  cbn [forallb]. intros H. apply andb_true_iff in H. destruct H as [Hx Ht].
  destruct t as [|y t']; [exact Hx|].
  change (PyStr.join sep (x :: y :: t'))
    with (x ++ sep ++ PyStr.join sep (y :: t')).
  rewrite !lacks_app, Hx, Hsep, (IH Ht). reflexivity.
Qed.

(** Without [indent], [json.dumps] writes one line, provided a float is
    written on one line. *)
Lemma encode_one_line :
  (forall f, PyStr.lacks PyStr.nl (floatstr f) = true) ->
  forall v level, PyStr.lacks PyStr.nl (encode floatstr None level v) = true.
Proof.
  intros Hfloat. fix IH 1. intros v level.
  destruct v as [| b | n | f | s | items | items].
  - reflexivity.
  - destruct b; reflexivity.
  - apply of_int_one_line.
  - apply Hfloat.
  - apply encode_str_one_line.
  - destruct items as [|x t]; [reflexivity|].
    cbn [encode item_open item_separator item_close].
    rewrite !lacks_app. rewrite join_one_line; [reflexivity | reflexivity |].
    generalize (x :: t). fix IHl 1. intros [|y l]; [reflexivity|].
    cbn [map forallb]. rewrite (IH y (S level)), (IHl l). reflexivity.
  - destruct items as [|x t]; [reflexivity|].
    cbn [encode item_open item_separator item_close].
    rewrite !lacks_app. rewrite join_one_line; [reflexivity | reflexivity |].
    generalize (x :: t). fix IHl 1. intros [|[k y] l]; [reflexivity|].
    cbn [map forallb]. rewrite !lacks_app, encode_str_one_line.
    rewrite (IH y (S level)), (IHl l). reflexivity.
Qed.

(** X22.  In find mode without [--json], for a reply that decodes to an
    object, the last line printed is the returned object as JSON on a
    single line, so that the last line of the output can be parsed;
    floats are supposed to be written without a line break, as Python
    writes them. *)
Theorem find_text_last_line (w : World) (args : Args) (element raw : string)
        (o : list (string * value pyfloat)) :
  (forall f, PyStr.lacks PyStr.nl (floatstr f) = true) ->
  ready w args ->
  finds args element ->
  arg_json args = false ->
  find_reply w (arg_image args) element raw ->
  json_loads (strip_fence (PyStr.strip raw)) = inr (VDict o) ->
  last (stdout (fst (run_main w args))) EmptyString
    = json_dumps floatstr (VDict (with_element o element)) /\
  PyStr.lacks PyStr.nl (json_dumps floatstr (VDict (with_element o element)))
    = true.
Proof.
  intros Hfloat Hready Hfinds Hjson Hreply Hloads.
  destruct (find_text_stdout w args element raw o Hready Hfinds Hjson Hreply
              Hloads) as [Hout _].
  rewrite Hout. split.
  - destruct (truthy float_bool _); reflexivity.
  - apply encode_one_line. exact Hfloat.
Qed.


(** *** How a run ends *)




End MoreRuns.

(* ===================================================================== *)
(** ** These properties at work                                          *)
(* ===================================================================== *)

Section MoreInstances.
Import Sample.

Local Abbreviation denied := (Exn OtherException "Permission denied").
Local Abbreviation no_image := (Exn OtherException "cannot identify image file").

Lemma cases_ready (size : exn + (Z * Z)) (read : exn + list Byte.byte)
      (answer : exn + list content_block) (args : Args) :
  ready (Cases.world size read None answer) args.
Proof. split; reflexivity. Qed.

Lemma usage_error_report_witness :
  run_main "unused" {| arg_image := "/tmp/shot.png"; arg_find := Some EmptyString;
                       arg_describe := false; arg_json := true |}
  = ([Print (error_line "success" "Specify --find 'element' or --describe")],
     Exited 1).
Proof.
  exact (usage_error_report floatstr float_bool json_loads py_str
           (world "unused")
           {| arg_image := "/tmp/shot.png"; arg_find := Some EmptyString;
              arg_describe := false; arg_json := true |}
           eq_refl eq_refl eq_refl).
Defined.

Lemma client_failure_witness :
  Cases.run json_loads
    (Cases.world (inr (4, 3)%Z) (inr []) (Some (Exn AuthenticationError "no key"))
       (inr []))
    (args_find "Save" false)
  = ([NewClient;
      Print (error_line "success" "ANTHROPIC_API_KEY not set or invalid")],
     Exited 1).
Proof.
  exact (client_failure floatstr float_bool json_loads py_str
           (Cases.world (inr (4, 3)%Z) (inr [])
              (Some (Exn AuthenticationError "no key")) (inr []))
           (args_find "Save" false) (Exn AuthenticationError "no key")
           eq_refl eq_refl eq_refl).
Defined.

Lemma request_error_report_witness :
  stdout (fst (Cases.run json_loads
                 (Cases.answering (inl (Exn AuthenticationError "invalid x-api-key")))
                 (args_describe false)))
  = [error_line "found" "Anthropic API error: invalid x-api-key"].
Proof.
  refine (proj1 (request_error_report floatstr float_bool json_loads py_str
                   (Cases.answering (inl (Exn AuthenticationError "invalid x-api-key")))
                   (args_describe false)
                   (Exn AuthenticationError "invalid x-api-key")
                   (cases_ready _ _ _ _) _)).
  right. split; [split; reflexivity|].
  exists [Byte.x4d; Byte.x61]. split; reflexivity.
Defined.

Lemma empty_content_report_witness :
  stdout (fst (Cases.run json_loads (Cases.answering (inr []))
                 (args_find "Save" true)))
  = [error_line "found" "Unexpected error: list index out of range"].
Proof.
  refine (proj1 (empty_content_report floatstr float_bool json_loads py_str
                   (Cases.answering (inr [])) (args_find "Save" true)
                   (cases_ready _ _ _ _) _)).
  left. exists "Save". split; [split; [reflexivity | discriminate]|].
  exists 4%Z, 3%Z, [Byte.x4d; Byte.x61]. repeat split.
Defined.


Lemma describe_opens_nothing_witness :
  opened (fst (Cases.run json_loads
                 (Cases.world (inl no_image) (inr []) None
                    (inr [TextBlock "A desktop."]))
                 (args_describe false)))
  = [].
Proof.
  apply (describe_opens_nothing floatstr float_bool json_loads py_str).
  split; reflexivity.
Defined.

Lemma unopenable_image_witness :
  Cases.run json_loads (Cases.world (inl no_image) (inr []) None (inr []))
    (args_find "Save" false)
  = ([NewClient; OpenImage "/tmp/shot.png";
      Print (error_line "found"
               "Unexpected error: cannot identify image file")],
     Exited 1).
Proof.
  refine (unopenable_image floatstr float_bool json_loads py_str
            (Cases.world (inl no_image) (inr []) None (inr []))
            (args_find "Save" false) "Save" no_image
            (cases_ready _ _ _ _) _ eq_refl).
  split; [reflexivity | discriminate].
Defined.

Lemma unreadable_file_witness :
  requests (fst (Cases.run json_loads
                   (Cases.world (inr (4, 3)%Z) (inl denied) None (inr []))
                   (args_describe true)))
  = [].
Proof.
  refine (proj1 (unreadable_file floatstr float_bool json_loads py_str
                   (Cases.world (inr (4, 3)%Z) (inl denied) None (inr []))
                   (args_describe true) denied
                   (cases_ready _ _ _ _) _ eq_refl)).
  right. split; reflexivity.
Defined.

Lemma find_precedence_witness :
  run_main reply_missing (args_find "Save" false)
  = run_main reply_missing
      {| arg_image := "/tmp/shot.png"; arg_find := Some "Save";
         arg_describe := true; arg_json := false |}.
Proof.
  exact (find_precedence floatstr float_bool json_loads py_str
           (world reply_missing) (args_find "Save" false) true eq_refl).
Defined.

Lemma empty_find_ignored_witness :
  run_main "A desktop."
    {| arg_image := "/tmp/shot.png"; arg_find := Some EmptyString;
       arg_describe := true; arg_json := false |}
  = run_main "A desktop." (args_describe false).
Proof.
  exact (empty_find_ignored floatstr float_bool json_loads py_str
           (world "A desktop.")
           {| arg_image := "/tmp/shot.png"; arg_find := Some EmptyString;
              arg_describe := true; arg_json := false |} eq_refl).
Defined.

Lemma find_json_report_witness :
  snd (run_main reply_found (args_find "Save" true)) = Exited 0.
Proof.
  refine (proj2 (find_json_report floatstr float_bool json_loads py_str
                   (world reply_found) (args_find "Save" true) "Save" reply_found
                   (VDict [("found", VBool true); ("x", VInt 10);
                           ("element", VStr "Save")])
                   (sample_ready reply_found (args_find "Save" true) eq_refl)
                   _ eq_refl (sample_find_reply reply_found "Save") eq_refl)).
  split; [reflexivity | discriminate].
Defined.

Lemma describe_text_report_witness :
  stdout (fst (run_main ("  A desktop. " ++ NL) (args_describe false)))
  = ["A desktop."].
Proof.
  refine (proj1 (describe_text_report floatstr float_bool json_loads py_str
                   (world ("  A desktop. " ++ NL)) (args_describe false)
                   ("  A desktop. " ++ NL)
                   (sample_ready ("  A desktop. " ++ NL) (args_describe false)
                      eq_refl)
                   _ eq_refl (sample_describe_reply ("  A desktop. " ++ NL)))).
  split; reflexivity.
Defined.

Lemma find_text_report_witness :
  stdout (fst (run_main reply_found (args_find "Save" false)))
  = ["Found: Save"; "Coordinates: (10, ?)"; "Confidence: unknown";
     json_dumps floatstr
       (VDict [("found", VBool true); ("x", VInt 10); ("element", VStr "Save")])].
Proof.
  refine (proj1 (find_text_report floatstr float_bool json_loads py_str
                   (world reply_found) (args_find "Save" false) "Save" reply_found
                   [("found", VBool true); ("x", VInt 10)]
                   (sample_ready reply_found (args_find "Save" false) eq_refl)
                   _ eq_refl (sample_find_reply reply_found "Save") eq_refl)
            eq_refl).
  split; [reflexivity | discriminate].
Defined.

Lemma non_object_reply_text_witness :
  exists msg,
    stdout (fst (Cases.run (Cases.loads_to (VList [VStr "element"]))
                   (world "[1]") (args_find "Save" false)))
      = [error_line "found" ("Unexpected error: " ++ msg)] /\
    snd (Cases.run (Cases.loads_to (VList [VStr "element"]))
           (world "[1]") (args_find "Save" false)) = Exited 1.
Proof.
  refine (non_object_reply_text floatstr float_bool
            (Cases.loads_to (VList [VStr "element"])) py_str
            (world "[1]") (args_find "Save" false) "Save" "[1]"
            (VList [VStr "element"])
            (sample_ready "[1]" (args_find "Save" false) eq_refl)
            _ eq_refl (sample_find_reply "[1]" "Save") eq_refl I).
  split; [reflexivity | discriminate].
Defined.

Lemma find_element_has_element_witness :
  snd (contains_key
         (VDict [("found", VBool false); ("element", VStr "Save")] : value pyfloat)
         "element")
  = inr true.
Proof.
  exact (find_element_has_element json_loads (world reply_missing)
           "/tmp/shot.png" "Save"
           (VDict [("found", VBool false); ("element", VStr "Save")]) eq_refl).
Defined.

Lemma describe_screen_trimmed_witness :
  (forall c, first_char "A desktop." = Some c -> PyStr.isspace c = false) /\
  (forall c, last_char "A desktop." = Some c -> PyStr.isspace c = false).
Proof.
  exact (describe_screen_trimmed (world ("  A desktop. " ++ NL))
           "/tmp/shot.png" "A desktop." eq_refl).
Defined.

Lemma find_text_last_line_witness :
  last (stdout (fst (run_main reply_found (args_find "Save" false)))) EmptyString
  = json_dumps floatstr
      (VDict [("found", VBool true); ("x", VInt 10); ("element", VStr "Save")]).
Proof.
  refine (proj1 (find_text_last_line floatstr float_bool json_loads py_str
                   (world reply_found) (args_find "Save" false) "Save" reply_found
                   [("found", VBool true); ("x", VInt 10)]
                   (fun f : pyfloat => match f with end)
                   (sample_ready reply_found (args_find "Save" false) eq_refl)
                   _ eq_refl (sample_find_reply reply_found "Save") eq_refl)).
  split; [reflexivity | discriminate].
Defined.

End MoreInstances.
